(** * Habit-reminder job: timezone-correct eligibility

    A shallow embedding of the three reminder programs of the repository

      - [src/app/logic.py], [src/app/db.py], [src/app/main.py]
        (the job with the notified / skipped / errored counters),
      - [src/app/habit_notifier.py] (the pytz based variant),
      - [src/habit-tracker-cronjob/main.py] (the count based legacy job),

    and the properties of their window computation, log classification,
    decision rule, storage query and per-user error handling.

    Conventions.  An instant is a number of seconds since 1970-01-01T00:00:00Z
    (a [Z]); a wall-clock reading of a zone is the same kind of number, read
    in that zone.  A calendar date is its day number since 1970-01-01, so
    [date - timedelta(days=1)] is a subtraction of one.  The range limits of
    Python's [date] (years 1 to 9999) are not modelled. *)

From Stdlib Require Import ZArith List Bool Lia.
From stdpp Require Import base gmap strings list.

Local Open Scope Z_scope.

(** ** Time zones, as the code sees them through [zoneinfo] and [pytz]

    Neither library belongs to the repository.  A zone is the table both of
    them load from the IANA database: the offset in force before the first
    transition, and the transitions in increasing order of their instant,
    each with the offset in force from it on.  Within the range of Python's
    [datetime] every IANA zone is such a finite table. *)
Module Tz.

Definition SECONDS_PER_DAY : Z := 86400.

Record zone : Type := Zone {
  ttinfo_before : Z;            (* offset (s) before the first transition *)
  trans_utc : list (Z * Z)      (* (instant of the transition, offset from it on) *)
}.

(** [bisect_right] on a sorted table followed by the choice of the entry
    before the insertion point: the offset of the last transition that is
    not after [t], or [cur] when there is none. *)
Fixpoint find_trans (cur : Z) (table : list (Z * Z)) (t : Z) : Z :=
  match table with
  | [] => cur
  | (at_, off) :: rest => if t <? at_ then cur else find_trans off rest t
  end.

(** The table of transitions in wall-clock time that [zoneinfo] keeps for
    [fold = 0]: each transition is placed at its instant plus the larger
    of the offsets before and after it, so that a reading inside a gap or
    an overlap is given the offset in force before the transition. *)
Fixpoint trans_local (prev : Z) (table : list (Z * Z)) : list (Z * Z) :=
  match table with
  | [] => []
  | (at_, off) :: rest => (at_ + Z.max prev off, off) :: trans_local off rest
  end.

(** [tzinfo.fromutc]: the offset in force at the instant [t]. *)
Definition fromutc_offset (z : zone) (t : Z) : Z :=
  find_trans (ttinfo_before z) (trans_utc z) t.

(** [tzinfo.utcoffset(dt)] for a wall-clock reading with [fold = 0]. *)
Definition utcoffset (z : zone) (wall : Z) : Z :=
  find_trans (ttinfo_before z)
             (trans_local (ttinfo_before z) (trans_utc z)) wall.

(** [aware_utc.astimezone(zone)], as a wall-clock reading. *)
Definition astimezone (z : zone) (t : Z) : Z := t + fromutc_offset z t.

(** [datetime.date()] of a wall-clock reading (floor division). *)
Definition date (wall : Z) : Z := wall / SECONDS_PER_DAY.

(** [datetime.combine(d, datetime.min.time(), tzinfo=zone)]: the reading
    00:00:00 of day [d]. *)
Definition combine_min (d : Z) : Z := SECONDS_PER_DAY * d.

(** [datetime(wall, tzinfo=zone).astimezone(timezone.utc)]: the instant
    that Python assigns to a reading of the zone. *)
Definition to_utc (z : zone) (wall : Z) : Z := wall - utcoffset z wall.

(** Every offset the table can give. *)
Definition offsets (z : zone) : list Z :=
  ttinfo_before z :: map snd (trans_utc z).

(** No two offsets of the zone are a full day or more apart. *)
Definition span_below_day (z : zone) : Prop :=
  ∀ a b, a ∈ offsets z → b ∈ offsets z → b - a < SECONDS_PER_DAY.

Definition span_below_dayb (z : zone) : bool :=
  forallb (fun a => forallb (fun b => b - a <? SECONDS_PER_DAY) (offsets z))
          (offsets z).

(** *** Zones used in the examples (instants and offsets of the IANA
    database) *)

Definition UTC : zone := Zone 0 [].

(** Pacific/Apia from September 2011 to September 2012.  At the end of
    29 December 2011 the zone moved across the date line: the offset went
    from -10:00 to +14:00 and 30 December never took place there. *)
Definition Pacific_Apia : zone :=
  Zone (-39600)
       [ (1316872800, -36000)    (* 2011-09-24T14:00Z  -11:00 -> -10:00 *)
       ; (1325239200, 50400)     (* 2011-12-30T10:00Z  -10:00 -> +14:00 *)
       ; (1333202400, 46800)     (* 2012-03-31T14:00Z  +14:00 -> +13:00 *)
       ; (1348927200, 50400) ].  (* 2012-09-29T14:00Z  +13:00 -> +14:00 *)

(** America/New_York from November 2023 to March 2025. *)
Definition America_New_York : zone :=
  Zone (-14400)
       [ (1699164000, -18000)    (* 2023-11-05T06:00Z  EDT -> EST *)
       ; (1710054000, -14400)    (* 2024-03-10T07:00Z  EST -> EDT *)
       ; (1730613600, -18000)    (* 2024-11-03T06:00Z  EDT -> EST *)
       ; (1741503600, -14400) ]. (* 2025-03-09T07:00Z  EST -> EDT *)

(** America/Havana, whose clocks go forward at local midnight. *)
Definition America_Havana : zone :=
  Zone (-14400)
       [ (1699160400, -18000)    (* 2023-11-05T05:00Z  CDT -> CST *)
       ; (1710046800, -14400)    (* 2024-03-10T05:00Z  CST -> CDT, 00:00 -> 01:00 *)
       ; (1730610000, -18000)    (* 2024-11-03T05:00Z  CDT -> CST *)
       ; (1741496400, -14400) ]. (* 2025-03-09T05:00Z  CST -> CDT *)

(** *** Facts about the lookup *)

Lemma find_trans_in cur table t :
  find_trans cur table t ∈ cur :: map snd table.
Proof.
  revert cur. induction table as [|[at_ off] rest IH]; intros cur; simpl.
  - apply elem_of_cons. by left.
  - destruct (t <? at_).
    + apply elem_of_cons. by left.
    + apply elem_of_cons. right. apply IH.
Qed.

Lemma map_snd_trans_local prev table :
  map snd (trans_local prev table) = map snd table.
Proof.
  revert prev. induction table as [|[at_ off] rest IH]; intros prev; simpl.
  - reflexivity.
  - by rewrite IH.
Qed.

Lemma fromutc_offset_in z t : fromutc_offset z t ∈ offsets z.
Proof. apply find_trans_in. Qed.

Lemma utcoffset_in z wall : utcoffset z wall ∈ offsets z.
Proof.
  unfold utcoffset, offsets.
  rewrite <- (map_snd_trans_local (ttinfo_before z) (trans_utc z)).
  apply find_trans_in.
Qed.

Lemma span_below_dayb_spec z : span_below_dayb z = true → span_below_day z.
Proof.
  unfold span_below_dayb, span_below_day. intros H a b Ha Hb.
  rewrite forallb_forall in H.
  apply list_elem_of_In in Ha. apply list_elem_of_In in Hb.
  specialize (H a Ha). rewrite forallb_forall in H.
  specialize (H b Hb). lia.
Qed.

Lemma utcoffset_UTC wall : utcoffset UTC wall = 0.
Proof. reflexivity. Qed.

Lemma fromutc_offset_UTC t : fromutc_offset UTC t = 0.
Proof. reflexivity. Qed.

(** The tables reproduce what the libraries answer. *)
Example apia_before_jump : astimezone Pacific_Apia 1325239199 = 1325203199.
Proof. reflexivity. Qed.   (* 2011-12-29T23:59:59-10:00 *)

Example apia_after_jump : astimezone Pacific_Apia 1325239200 = 1325289600.
Proof. reflexivity. Qed.   (* 2011-12-31T00:00:00+14:00 *)

Example new_york_spring_2024 :
  to_utc America_New_York (combine_min 19792) = 1710046800      (* 03-10 05:00Z *)
  ∧ to_utc America_New_York (combine_min 19793) = 1710129600.   (* 03-11 04:00Z *)
Proof. split; reflexivity. Qed.

End Tz.


(** ** Exceptions and state

    Python code that may raise and that acts on the outside world is a
    function from a state to a result and a state; the result is the raised
    exception or the returned value. *)
Module Eff.

Inductive exn : Type := Exception (what : string).

Definition M (S A : Type) : Type := S → (exn + A) * S.

Definition ret {S A} (a : A) : M S A := fun s => (inr a, s).

Definition raise {S A} (e : exn) : M S A := fun s => (inl e, s).

Definition bind {S A B} (m : M S A) (k : A → M S B) : M S B :=
  fun s => match m s with
           | (inr a, s') => k a s'
           | (inl e, s') => (inl e, s')
           end.

(** [try: body except Exception as e: handler]: the handler runs in the
    state the body left behind when it raised. *)
Definition try_except {S A} (body : M S A) (handler : exn → M S A) : M S A :=
  fun s => match body s with
           | (inl e, s') => handler e s'
           | (inr a, s') => (inr a, s')
           end.

(** A statement that cannot raise. *)
Definition modify {S} (f : S → S) : M S unit := fun s => (inr tt, f s).

(** [for x in xs: body]. *)
Fixpoint for_each {S A} (xs : list A) (body : A → M S unit) : M S unit :=
  match xs with
  | [] => ret tt
  | x :: rest => bind (body x) (fun _ => for_each rest body)
  end.

(** A computation on the world, run by a function that also has local
    variables [L]. *)
Definition lift {L W A} (m : M W A) : M (L * W) A :=
  fun s => match m (snd s) with (r, w') => (r, (fst s, w')) end.

(** Run a computation that has local variables, from their initial
    values; the locals are handed back when it returns. *)
Definition with_locals {L W A} (init : L) (m : M (L * W) A) : M W (A * L) :=
  fun w => match m (init, w) with
           | (inr a, (l, w')) => (inr (a, l), w')
           | (inl e, (_, w')) => (inl e, w')
           end.

(** Did the computation return? *)
Definition returned {A} (r : exn + A) : bool :=
  match r with inr _ => true | inl _ => false end.

End Eff.

(** The notations [x ← m; k] and [m;; k] of stdpp are used for [Eff.bind]. *)
#[export] Instance M_ret {S} : MRet (Eff.M S) := fun A a => Eff.ret a.
#[export] Instance M_bind {S} : MBind (Eff.M S) := fun A B k m => Eff.bind m k.

(** ** Values the programs exchange *)
Module Py.

(** A [datetime]: naive (a bare wall-clock reading) or aware (an instant). *)
Inductive datetime : Type :=
| Naive (wall : Z)
| Aware (instant : Z).

(** Severity of a log record. *)
Inductive level : Type := INFO | WARNING | ERROR.

(** The values put in a record's [extra]. *)
Inductive value : Type :=
| VNone
| VInt (n : Z)
| VStr (s : string).

Definition of_opt_str (o : option string) : value :=
  match o with Some s => VStr s | None => VNone end.

Record log_record : Type := LogRecord {
  lr_level : level;
  lr_msg : string;
  lr_extra : list (string * value)
}.

(** Truth value of an optional string ([None] and [''] are false). *)
Definition truthy (o : option string) : bool :=
  match o with
  | Some s => negb (String.eqb s "")
  | None => false
  end.

End Py.

(** ** The database: tables [User], [Habit], [Log] *)
Module Schema.

Record user_row : Type := UserRow {
  u_id : Z;
  u_name : string;
  u_time_zone : option string;        (* NULL is [None] *)
  u_phone_number : option string
}.

Record habit_row : Type := HabitRow {
  h_id : Z;
  h_user_id : Z
}.

Record log_row : Type := LogRow {
  l_id : Z;
  l_habit_id : Z;
  l_created_at : Z                   (* DATETIME, kept in UTC *)
}.

Record tables : Type := Tables {
  User : list user_row;
  Habit : list habit_row;
  Log : list log_row
}.

(** [Log l JOIN Habit h ON h.id = l.habit_id]: one row per matching pair. *)
Definition log_join_habit (db : tables) : list (log_row * habit_row) :=
  l ← Log db; h ← Habit db;
  if h_id h =? l_habit_id l then [(l, h)] else [].

(** [phone_number IS NOT NULL AND phone_number <> ''] *)
Definition has_phone (u : user_row) : bool := Py.truthy (u_phone_number u).

End Schema.

(** ** What the programs use of their environment

    The clock, the time zone database, the MySQL server, the Twilio client
    and the logging handlers are outside the repository.  [W] is the state
    of that outside world. *)
Class Runtime (W : Type) : Type := {
  (** [datetime.now(timezone.utc)]; reading the clock may let time pass. *)
  datetime_now : W → Z * W;
  (** [ZoneInfo(key)]; [None] when the constructor raises. *)
  ZoneInfo : string → option Tz.zone;
  (** [db._pool is not None] *)
  db_pool_ready : W → bool;
  (** Check a connection out of the pool and execute a statement: this
      raises, or the statement is evaluated on the tables as they are. *)
  mysql_execute : W → (Eff.exn + Schema.tables) * W;
  (** [notifier._client is not None] *)
  twilio_client_ready : W → bool;
  (** [_client.messages.create(from_=, to=, body=)] *)
  twilio_create : string → string → string → W → (Eff.exn + unit) * W;
  (** The logging handlers; a handler never lets an error escape. *)
  logging_handle : Py.log_record → W → W
}.

Section RuntimeOps.
Context {W : Type} {R : Runtime W}.

(** [logger.<level>(msg, extra=extra)] *)
Definition log (lv : Py.level) (msg : string) (extra : list (string * Py.value))
  : Eff.M W unit :=
  Eff.modify (logging_handle (Py.LogRecord lv msg extra)).

Definition now_utc : Eff.M W Z :=
  fun w => match datetime_now w with (t, w') => (inr t, w') end.

(** [ZoneInfo(v)] for a value that may be [None] (a [TypeError] then). *)
Definition ZoneInfo_py (v : option string) : option Tz.zone :=
  match v with
  | Some key => ZoneInfo key
  | None => None
  end.

End RuntimeOps.

(** ** [src/app/db.py] *)
Module Db.
Section Db.
Context {W : Type} {R : Runtime W}.

Definition _get_conn : Eff.M W Schema.tables :=
  fun w =>
    if db_pool_ready w then mysql_execute w
    else (inl (Eff.Exception "DB pool not initialized"), w).

(** The [SELECT] of [fetch_users_with_phones] on given tables. *)
Definition select_users_with_phones (db : Schema.tables)
  : list (Z * option string * string) :=
  u ← filter (fun u => Is_true (Schema.has_phone u)) (Schema.User db);
  match Schema.u_phone_number u with
  | Some phone => [(Schema.u_id u, Schema.u_time_zone u, phone)]
  | None => []
  end.

Definition fetch_users_with_phones : Eff.M W (list (Z * option string * string)) :=
  db ← _get_conn;
  Eff.ret (select_users_with_phones db).

(** The [SELECT] of [fetch_user_logs_between] on given tables:
    [WHERE h.user_id = %s AND l.created_at >= %s AND l.created_at < %s]. *)
Definition select_user_logs_between
    (db : Schema.tables) (user_id start_utc end_utc : Z) : list Z :=
  Schema.l_created_at ∘ fst <$>
    filter (fun r : Schema.log_row * Schema.habit_row =>
              Is_true ((Schema.h_user_id (snd r) =? user_id)
                       && (start_utc <=? Schema.l_created_at (fst r))
                       && (Schema.l_created_at (fst r) <? end_utc)))
           (Schema.log_join_habit db).

(** The bounds are sent as naive UTC readings and the rows come back as
    naive datetimes. *)
Definition fetch_user_logs_between (user_id start_utc end_utc : Z)
  : Eff.M W (list Py.datetime) :=
  db ← _get_conn;
  Eff.ret (Py.Naive <$> select_user_logs_between db user_id start_utc end_utc).

End Db.
End Db.

(** ** [src/app/notifier.py] *)
Module Notifier.
Section Notifier.
Context {W : Type} {R : Runtime W}.

Definition send_sms (from_number to_number body : string) : Eff.M W unit :=
  fun w =>
    if twilio_client_ready w then
      Eff.try_except
        ((twilio_create from_number to_number body : Eff.M W unit);;
         log Py.INFO "sms_sent" [("to", Py.VStr to_number)])
        (fun e =>
           log Py.ERROR "sms_error"
               [("to", Py.VStr to_number);
                ("error", Py.VStr (match e with Eff.Exception s => s end))];;
           Eff.raise e)
        w
    else (inl (Eff.Exception "Twilio client not initialized"), w).

End Notifier.
End Notifier.

(** ** The verdict of the eligibility rule, as the specification names it *)
Inductive reason : Type := no_logs_two_days | missed_yesterday.

Inductive verdict : Type :=
| NOTIFY (why : reason)
| SKIP.

(** ** [src/app/logic.py] *)
Module Logic.

(** The window of a resolved zone at the instant [now_utc]
    (lines 18 to 28 of [_compute_window]). *)
Definition window (zone : Tz.zone) (now_utc : Z) : Z * Z * Z * Z :=
  let local_now := Tz.astimezone zone now_utc in
  let local_today := Tz.date local_now in
  let local_yesterday := local_today - 1 in
  let local_day_before := local_today - 2 in
  let start_local_day_before := Tz.combine_min local_day_before in
  let start_local_today := Tz.combine_min local_today in
  let start_utc_day_before := Tz.to_utc zone start_local_day_before in
  let start_utc_today := Tz.to_utc zone start_local_today in
  let start_local_yesterday := Tz.combine_min local_yesterday in
  let start_utc_yesterday := Tz.to_utc zone start_local_yesterday in
  (start_utc_day_before, start_utc_yesterday, start_utc_today, local_yesterday).

(** The local date of one log (lines 39 to 41 of [_classify_days]): a
    naive datetime is taken as UTC. *)
Definition local_date (z : Tz.zone) (dt : Py.datetime) : Z :=
  let instant := match dt with
                 | Py.Naive wall => wall      (* dt.replace(tzinfo=timezone.utc) *)
                 | Py.Aware t => t
                 end in
  Tz.date (Tz.astimezone z instant).

(** The loop of [_classify_days] (lines 37 to 43). *)
Definition classify (z : Tz.zone) (created_list : list Py.datetime) : gset Z :=
  fold_left (fun days dt => {[ local_date z dt ]} ∪ days) created_list ∅.

(** Lines 59 to 66 of [run_job]: [should_notify] and [reason]. *)
Definition decide_notify (has_day_before has_yesterday : bool) : bool * string :=
  if negb has_day_before && negb has_yesterday then (true, "no_logs_two_days")
  else if has_day_before && negb has_yesterday then (true, "missed_yesterday")
  else (false, "").

(** Lines 56 to 66 of [run_job]: the rule applied to the set of local
    dates that have a log. *)
Definition evaluate (days : gset Z) (local_yesterday : Z) : bool * string :=
  let day_before := local_yesterday - 1 in
  let has_day_before := bool_decide (day_before ∈ days) in
  let has_yesterday := bool_decide (local_yesterday ∈ days) in
  decide_notify has_day_before has_yesterday.

(** The verdict that [should_notify] and [reason] stand for. *)
Definition verdict_of (r : bool * string) : option verdict :=
  match r with
  | (false, _) => Some SKIP
  | (true, why) =>
      if String.eqb why "no_logs_two_days" then Some (NOTIFY no_logs_two_days)
      else if String.eqb why "missed_yesterday" then Some (NOTIFY missed_yesterday)
      else None
  end.

(** The local variables of [run_job]. *)
Record counters : Type := Counters {
  notified : Z;
  skipped : Z;
  errors : Z
}.

Definition body_text : string :=
  "Reminder: no recent habit logs. Open the app to log your progress.".

Section Logic.
Context {W : Type} {R : Runtime W}.

(** The [try ... except] of lines 13 to 17 and of lines 32 to 36. *)
Definition resolve_zone (tz_name : option string) : Eff.M W Tz.zone :=
  match ZoneInfo_py tz_name with
  | Some zone => Eff.ret zone
  | None =>
      log Py.WARNING "invalid_timezone" [("tz", Py.of_opt_str tz_name)];;
      match ZoneInfo "UTC" with
      | Some zone => Eff.ret zone
      | None => Eff.raise (Eff.Exception "No time zone found with key UTC")
      end
  end.

Definition _compute_window (tz_name : option string) : Eff.M W (Z * Z * Z * Z) :=
  now ← now_utc;
  zone ← resolve_zone tz_name;
  Eff.ret (window zone now).

Definition _classify_days (tz_name : option string) (created_list : list Py.datetime)
  : Eff.M W (gset Z) :=
  z ← resolve_zone tz_name;
  Eff.ret (classify z created_list).

Definition incr_notified : Eff.M (counters * W) unit :=
  Eff.modify (fun s => (Counters (notified s.1 + 1) (skipped s.1) (errors s.1), s.2)).

Definition incr_skipped : Eff.M (counters * W) unit :=
  Eff.modify (fun s => (Counters (notified s.1) (skipped s.1 + 1) (errors s.1), s.2)).

Definition incr_errors : Eff.M (counters * W) unit :=
  Eff.modify (fun s => (Counters (notified s.1) (skipped s.1) (errors s.1 + 1), s.2)).

(** Lines 53 to 73: the body of the [try]. *)
Definition try_user (twilio_from : string) (user_id : Z)
    (tz_name : option string) (phone : string) : Eff.M (counters * W) unit :=
  '(s1, s2, s3, local_yesterday) ← Eff.lift (_compute_window tz_name);
  logs ← Eff.lift (Db.fetch_user_logs_between user_id s1 s3);
  days ← Eff.lift (_classify_days tz_name logs);
  let '(should_notify, reason) := evaluate days local_yesterday in
  if should_notify then
    Eff.lift (Notifier.send_sms twilio_from phone body_text);;
    incr_notified;;
    Eff.lift (log Py.INFO "notified"
                  [("user_id", Py.VInt user_id); ("reason", Py.VStr reason)])
  else
    incr_skipped.

(** Lines 51 to 76: one turn of the [for] loop. *)
Definition for_user (twilio_from : string) (u : Z * option string * string)
  : Eff.M (counters * W) unit :=
  let '(user_id, tz_name, phone) := u in
  Eff.try_except
    (try_user twilio_from user_id tz_name phone)
    (fun e =>
       incr_errors;;
       Eff.lift (log Py.ERROR "user_error"
                     [("user_id", Py.VInt user_id);
                      ("error", Py.VStr (match e with Eff.Exception s => s end))])).

Definition run_job (twilio_from : string) : Eff.M W (Z * Z * Z) :=
  users ← Db.fetch_users_with_phones;
  '(_, c) ← Eff.with_locals (Counters 0 0 0)
                            (Eff.for_each users (for_user twilio_from));
  Eff.ret (notified c, skipped c, errors c).

End Logic.
End Logic.

(** ** [src/app/main.py] *)
Module Main.
Section Main.
Context {W : Type} {R : Runtime W}.

(** Lines 15 to 28 of [main]: configuration, logging, health server, pool
    and client set-up.  Any of them may raise; the value is
    [cfg.twilio_from]. *)
Variable startup : Eff.M W string.

(** [stop_health_server], which swallows what [shutdown] raises. *)
Variable stop_health_server : W → W.

Definition main : Eff.M W Z :=
  twilio_from ← startup;
  '(notified, skipped, errors) ← Logic.run_job twilio_from;
  log Py.INFO "run_complete"
      [("notified", Py.VInt notified); ("skipped", Py.VInt skipped);
       ("errors", Py.VInt errors)];;
  Eff.modify stop_health_server;;
  Eff.ret (if errors =? 0 then 0 else 1).

End Main.
End Main.

(** ** [src/app/habit_notifier.py] *)
Module HabitNotifier.

(** Lines 121 to 131 and 156 to 157: the day boundaries.  [datetime.now(tz)]
    of a pytz zone carries the fixed offset in force at that instant;
    [replace] and the subtraction of a [timedelta] keep it, and
    [astimezone(pytz.UTC)] subtracts it. *)
Record boundaries : Type := Boundaries {
  today_start_utc : Z;
  yesterday_start_utc : Z;
  two_days_ago_start_utc : Z;
  yesterday_date : Z;
  two_days_ago_date : Z
}.

Definition day_boundaries (user_tz : Tz.zone) (now_utc : Z) : boundaries :=
  let offset := Tz.fromutc_offset user_tz now_utc in
  let now := now_utc + offset in
  let today_start := Tz.SECONDS_PER_DAY * (now / Tz.SECONDS_PER_DAY) in
  let yesterday_start := today_start - 1 * Tz.SECONDS_PER_DAY in
  let two_days_ago_start := today_start - 2 * Tz.SECONDS_PER_DAY in
  {| today_start_utc := today_start - offset;
     yesterday_start_utc := yesterday_start - offset;
     two_days_ago_start_utc := two_days_ago_start - offset;
     yesterday_date := Tz.date yesterday_start;
     two_days_ago_date := Tz.date two_days_ago_start |}.

(** The rows the query of lines 134 to 149 reads before grouping:
    [WHERE h.user_id = %s AND l.created_at >= %s]. *)
Definition select_logs_since (db : Schema.tables) (user_id since_utc : Z) : list Z :=
  Schema.l_created_at ∘ fst <$>
    filter (fun r : Schema.log_row * Schema.habit_row =>
              Is_true ((Schema.h_user_id (snd r) =? user_id)
                       && (since_utc <=? Schema.l_created_at (fst r))))
           (Schema.log_join_habit db).

(** [DATE(CONVERT_TZ(l.created_at, '+00:00', zone))], one group per date;
    [logged_dates] is the set of the groups' dates (line 154). *)
Definition logged_dates (user_tz : Tz.zone) (created : list Z) : gset Z :=
  list_to_set (Tz.date ∘ Tz.astimezone user_tz <$> created).

(** Lines 163 to 171. *)
Definition decide_notify (has_yesterday_log has_two_days_ago_log : bool)
  : bool * string :=
  if negb has_yesterday_log && negb has_two_days_ago_log
  then (true, "No logs in the past 2 days")
  else if has_two_days_ago_log && negb has_yesterday_log
  then (true, "Logged 2 days ago but not yesterday")
  else (false, "").

(** Lines 159 to 171. *)
Definition evaluate (logged : gset Z) (b : boundaries) : bool * string :=
  let has_yesterday_log := bool_decide (yesterday_date b ∈ logged) in
  let has_two_days_ago_log := bool_decide (two_days_ago_date b ∈ logged) in
  decide_notify has_yesterday_log has_two_days_ago_log.

(** The verdict that [should_notify] and [reason] stand for. *)
Definition verdict_of (r : bool * string) : option verdict :=
  match r with
  | (false, _) => Some SKIP
  | (true, why) =>
      if String.eqb why "No logs in the past 2 days"
      then Some (NOTIFY no_logs_two_days)
      else if String.eqb why "Logged 2 days ago but not yesterday"
      then Some (NOTIFY missed_yesterday)
      else None
  end.

Record entry : Type := Entry {
  e_user_id : Z;
  e_name : string;
  e_phone_number : option string;
  e_reason : string
}.

Section HabitNotifier.
Context {W : Type} {R : Runtime W}.

(** [pytz.timezone(name)]; [None] when it raises [UnknownTimeZoneError]. *)
Variable pytz_timezone : string → option Tz.zone.

(** Line 118. *)
Definition user_tz_of (time_zone : option string) : Eff.M W Tz.zone :=
  if Py.truthy time_zone then
    match time_zone ≫= pytz_timezone with
    | Some tz => Eff.ret tz
    | None => Eff.raise (Eff.Exception "UnknownTimeZoneError")
    end
  else Eff.ret Tz.UTC.

(** Lines 116 to 180: one turn of the loop; nothing is caught here.  The
    formatted texts of the log messages are kept as a fixed message and
    the values that are formatted into it. *)
Definition for_user (user : Schema.user_row) : Eff.M (list entry * W) unit :=
  let user_id := Schema.u_id user in
  user_tz ← Eff.lift (user_tz_of (Schema.u_time_zone user));
  now ← Eff.lift now_utc;
  let b := day_boundaries user_tz now in
  db ← Eff.lift (mysql_execute : Eff.M W Schema.tables);
  let logs := select_logs_since db user_id (two_days_ago_start_utc b) in
  let '(should_notify, reason) := evaluate (logged_dates user_tz logs) b in
  if should_notify then
    Eff.modify (fun s : list entry * W =>
                  (s.1 ++ [Entry user_id (Schema.u_name user)
                                 (Schema.u_phone_number user) reason], s.2));;
    Eff.lift (log Py.INFO "needs notification"
                  [("user_id", Py.VInt user_id); ("reason", Py.VStr reason)])
  else Eff.ret tt.

(** Lines 102 to 187. *)
Definition get_users_needing_notification : Eff.M W (list entry) :=
  Eff.try_except
    (db ← (mysql_execute : Eff.M W Schema.tables);
     let users := filter (fun u => Is_true (Schema.has_phone u)) (Schema.User db) in
     log Py.INFO "Found users with phone numbers"
         [("count", Py.VInt (Z.of_nat (length users)))];;
     '(_, users_to_notify) ← Eff.with_locals [] (Eff.for_each users for_user);
     log Py.INFO "Total users needing notification" [];;
     Eff.ret users_to_notify)
    (fun e =>
       log Py.ERROR "Error querying database"
           [("error", Py.VStr (match e with Eff.Exception s => s end))];;
       Eff.raise e).

End HabitNotifier.
End HabitNotifier.

(** ** [src/habit-tracker-cronjob/main.py] *)
Module Legacy.

(** The logs that the two [LEFT JOIN]s attach to a user:
    [h.user_id = u.id], [l.habit_id = h.id], [l.created_at >= two_days_ago]. *)
Definition joined_logs (db : Schema.tables) (user_id two_days_ago : Z) : list Z :=
  h ← filter (fun h => Is_true (Schema.h_user_id h =? user_id)) (Schema.Habit db);
  l ← filter (fun l => Is_true ((Schema.l_habit_id l =? Schema.h_id h)
                                && (two_days_ago <=? Schema.l_created_at l)))
             (Schema.Log db);
  [Schema.l_created_at l].

(** [MAX(l.created_at)]; [None] is NULL. *)
Definition sql_max (xs : list Z) : option Z :=
  match xs with
  | [] => None
  | x :: rest => Some (fold_left Z.max rest x)
  end.

(** [HAVING COUNT(l.id) = 0 OR (COUNT(l.id) = 1 AND MAX(l.created_at) < %s)] *)
Definition having (logs : list Z) (yesterday : Z) : bool :=
  (Z.of_nat (length logs) =? 0)
  || ((Z.of_nat (length logs) =? 1)
      && match sql_max logs with
         | Some m => m <? yesterday
         | None => false             (* a comparison with NULL is not true *)
         end).

(** The query of [get_users_to_notify] on given tables; [now] is the
    reading of [datetime.now()]. *)
Definition select_users_to_notify (db : Schema.tables) (now : Z)
  : list Schema.user_row :=
  let two_days_ago := now - 2 * Tz.SECONDS_PER_DAY in
  let yesterday := now - 1 * Tz.SECONDS_PER_DAY in
  filter (fun u => Is_true (having (joined_logs db (Schema.u_id u) two_days_ago)
                                   yesterday))
         (Schema.User db).

End Legacy.

(** ** A concrete world, for running the programs on examples

    The clock stands still during a run; the MySQL server and the Twilio
    client follow a script that says, for each call still to come, whether
    it raises. *)
Module Sim.

Record world : Type := World {
  clock : Z;
  db : Schema.tables;
  pool_ready : bool;
  client_ready : bool;
  mysql_script : list bool;          (* [true]: the next statement raises *)
  twilio_script : list bool;         (* [true]: the next message is refused *)
  sent : list (string * string * string);
  journal : list Py.log_record
}.

Definition tzdata (key : string) : option Tz.zone :=
  if String.eqb key "UTC" then Some Tz.UTC
  else if String.eqb key "Pacific/Apia" then Some Tz.Pacific_Apia
  else if String.eqb key "America/New_York" then Some Tz.America_New_York
  else if String.eqb key "America/Havana" then Some Tz.America_Havana
  else None.

Definition execute (w : world) : (Eff.exn + Schema.tables) * world :=
  let w' := World (clock w) (db w) (pool_ready w) (client_ready w)
                  (tail (mysql_script w)) (twilio_script w) (sent w) (journal w) in
  match mysql_script w with
  | true :: _ => (inl (Eff.Exception "mysql.connector.Error"), w')
  | _ => (inr (db w), w')
  end.

Definition create (from_ to body : string) (w : world) : (Eff.exn + unit) * world :=
  match twilio_script w with
  | true :: _ =>
      (inl (Eff.Exception "TwilioRestException"),
       World (clock w) (db w) (pool_ready w) (client_ready w) (mysql_script w)
             (tail (twilio_script w)) (sent w) (journal w))
  | _ =>
      (inr tt,
       World (clock w) (db w) (pool_ready w) (client_ready w) (mysql_script w)
             (tail (twilio_script w)) (sent w ++ [(from_, to, body)]) (journal w))
  end.

Definition handle (r : Py.log_record) (w : world) : world :=
  World (clock w) (db w) (pool_ready w) (client_ready w) (mysql_script w)
        (twilio_script w) (sent w) (journal w ++ [r]).

#[global] Instance runtime : Runtime world := {
  datetime_now w := (clock w, w);
  ZoneInfo := tzdata;
  db_pool_ready := pool_ready;
  mysql_execute := execute;
  twilio_client_ready := client_ready;
  twilio_create := create;
  logging_handle := handle
}.

(** A world ready to run: pool and client initialised, nothing sent. *)
Definition ready (now : Z) (tables : Schema.tables)
    (mysql twilio : list bool) : world :=
  World now tables true true mysql twilio [] [].

(** One habit per user, with the user's id. *)
Definition habits_of (users : list Schema.user_row) : list Schema.habit_row :=
  (fun u => Schema.HabitRow (Schema.u_id u) (Schema.u_id u)) <$> users.

Definition user (id : Z) (time_zone : string) : Schema.user_row :=
  Schema.UserRow id "user" (Some time_zone) (Some "+15550100").

(** Five users in UTC at 2024-03-11T12:00:00Z: 1 has no log in the window,
    2 logged two days ago only, 3 logged yesterday only, 4 on both days,
    5 today only. *)
Definition five_users : Schema.tables :=
  let users := [user 1 "UTC"; user 2 "UTC"; user 3 "UTC"; user 4 "UTC"; user 5 "UTC"] in
  Schema.Tables users (habits_of users)
    [ Schema.LogRow 1 2 1709978400      (* user 2, 2024-03-09T10:00Z *)
    ; Schema.LogRow 2 3 1710064800      (* user 3, 2024-03-10T10:00Z *)
    ; Schema.LogRow 3 4 1709942400      (* user 4, 2024-03-09T00:00Z *)
    ; Schema.LogRow 4 4 1710115199      (* user 4, 2024-03-10T23:59:59Z *)
    ; Schema.LogRow 5 5 1710115200 ].   (* user 5, 2024-03-11T00:00Z *)

Definition noon_2024_03_11 : Z := 1710158400.

(** One user in UTC whose only log is of 2024-03-10T10:00:00Z: yesterday
    on the calendar, more than 24 hours before noon of 2024-03-11. *)
Definition one_log_yesterday_morning : Schema.tables :=
  let users := [user 1 "UTC"] in
  Schema.Tables users (habits_of users) [Schema.LogRow 1 1 1710064800].

(** One user in UTC with two logs on 2024-03-09, at 13:00Z and 14:00Z, and
    none on 2024-03-10. *)
Definition two_logs_day_before : Schema.tables :=
  let users := [user 1 "UTC"] in
  Schema.Tables users (habits_of users)
    [Schema.LogRow 1 1 1709989200; Schema.LogRow 2 1 1709992800].

(** Three users without logs; the second has a time zone that no database
    knows. *)
Definition unknown_zone_user : Schema.tables :=
  let users := [user 1 "UTC"; user 2 "Mars/Phobos"; user 3 "UTC"] in
  Schema.Tables users (habits_of users) [].

End Sim.

(** * Properties *)

(** ** The decision rule *)

Lemma logic_decide_notify_table has_day_before has_yesterday :
  Logic.verdict_of (Logic.decide_notify has_day_before has_yesterday)
  = Some (match has_day_before, has_yesterday with
          | false, false => NOTIFY no_logs_two_days
          | true, false => NOTIFY missed_yesterday
          | _, true => SKIP
          end).
Proof. by destruct has_day_before, has_yesterday. Qed.

Lemma habit_notifier_decide_notify_table has_yesterday_log has_two_days_ago_log :
  HabitNotifier.verdict_of
    (HabitNotifier.decide_notify has_yesterday_log has_two_days_ago_log)
  = Some (match has_two_days_ago_log, has_yesterday_log with
          | false, false => NOTIFY no_logs_two_days
          | true, false => NOTIFY missed_yesterday
          | _, true => SKIP
          end).
Proof. by destruct has_yesterday_log, has_two_days_ago_log. Qed.

(** The decision table of the specification, for [localYesterday] =
    2024-03-10 (day 19792) and [localDayBefore] = 2024-03-09 (day 19791). *)
Example decision_table_2024_03_10 :
  Logic.verdict_of (Logic.evaluate ∅ 19792) = Some (NOTIFY no_logs_two_days)
  ∧ Logic.verdict_of (Logic.evaluate {[19791]} 19792) = Some (NOTIFY missed_yesterday)
  ∧ Logic.verdict_of (Logic.evaluate {[19792]} 19792) = Some SKIP
  ∧ Logic.verdict_of (Logic.evaluate {[19791; 19792]} 19792) = Some SKIP.
Proof. repeat split; by vm_compute. Qed.

(** C1.  For every set of local dates with a log and every yesterday, the
    evaluator of [run_job] answers NOTIFY(no_logs_two_days) when neither the
    day before nor yesterday is in the set, NOTIFY(missed_yesterday) when the
    day before is in it and yesterday is not, and SKIP whenever yesterday is
    in it; the rules are tried in this order and the answer depends on the
    set only through the two membership tests.  The evaluator of
    [get_users_needing_notification] answers the same on its two dates. *)
Theorem C1_decision_rule
    (days : gset Z) (local_yesterday : Z) (b : HabitNotifier.boundaries) :
  let day_before := local_yesterday - 1 in
  (((day_before ∉ days) ∧ local_yesterday ∉ days →
    Logic.verdict_of (Logic.evaluate days local_yesterday)
    = Some (NOTIFY no_logs_two_days))
   ∧ (day_before ∈ days ∧ local_yesterday ∉ days →
      Logic.verdict_of (Logic.evaluate days local_yesterday)
      = Some (NOTIFY missed_yesterday))
   ∧ (local_yesterday ∈ days →
      Logic.verdict_of (Logic.evaluate days local_yesterday) = Some SKIP)
   ∧ Logic.evaluate days local_yesterday
     = Logic.decide_notify (bool_decide (day_before ∈ days))
                           (bool_decide (local_yesterday ∈ days)))
  ∧ (((HabitNotifier.two_days_ago_date b ∉ days)
      ∧ HabitNotifier.yesterday_date b ∉ days →
      HabitNotifier.verdict_of (HabitNotifier.evaluate days b)
      = Some (NOTIFY no_logs_two_days))
     ∧ (HabitNotifier.two_days_ago_date b ∈ days
        ∧ HabitNotifier.yesterday_date b ∉ days →
        HabitNotifier.verdict_of (HabitNotifier.evaluate days b)
        = Some (NOTIFY missed_yesterday))
     ∧ (HabitNotifier.yesterday_date b ∈ days →
        HabitNotifier.verdict_of (HabitNotifier.evaluate days b) = Some SKIP)
     ∧ HabitNotifier.evaluate days b
       = HabitNotifier.decide_notify
           (bool_decide (HabitNotifier.yesterday_date b ∈ days))
           (bool_decide (HabitNotifier.two_days_ago_date b ∈ days))).
Proof.
  intros day_before. split.
  - unfold Logic.evaluate. fold day_before.
    rewrite logic_decide_notify_table.
    repeat split.
    + intros [Hd Hy]. by rewrite !bool_decide_eq_false_2.
    + intros [Hd Hy].
      by rewrite (bool_decide_eq_true_2 _ Hd), (bool_decide_eq_false_2 _ Hy).
    + intros Hy. rewrite (bool_decide_eq_true_2 _ Hy).
      by destruct (bool_decide (day_before ∈ days)).
  - unfold HabitNotifier.evaluate.
    rewrite habit_notifier_decide_notify_table.
    repeat split.
    + intros [Hd Hy]. by rewrite !bool_decide_eq_false_2.
    + intros [Hd Hy].
      by rewrite (bool_decide_eq_true_2 _ Hd), (bool_decide_eq_false_2 _ Hy).
    + intros Hy. rewrite (bool_decide_eq_true_2 _ Hy).
      by destruct (bool_decide (HabitNotifier.two_days_ago_date b ∈ days)).
Qed.

(** The rule at work: a log two days ago, none yesterday. *)
Lemma C1_decision_rule_witness :
  Logic.verdict_of (Logic.evaluate {[19791]} 19792) = Some (NOTIFY missed_yesterday).
Proof.
  pose proof (C1_decision_rule {[19791]} 19792
                (HabitNotifier.day_boundaries Tz.UTC Sim.noon_2024_03_11)) as H.
  apply H. split.
  - apply elem_of_singleton. reflexivity.
  - rewrite elem_of_singleton. discriminate.
Defined.

(** ** The three implementations of the rule *)

(** C6.  The rule of [run_job] and the rule of
    [get_users_needing_notification] give the same verdict, with the same
    class of reason, for every pair of booleans.  The count based rule of
    the legacy job differs from them: it notifies a user whose single log
    is of yesterday but older than 24 hours, whom both skip, and it leaves
    alone a user with two logs two days ago and none yesterday, whom both
    notify. *)
Theorem C6_two_rules_agree_legacy_differs :
  (∀ has_day_before has_yesterday : bool,
     Logic.verdict_of (Logic.decide_notify has_day_before has_yesterday)
     = HabitNotifier.verdict_of
         (HabitNotifier.decide_notify has_yesterday has_day_before)
     ∧ (Logic.decide_notify has_day_before has_yesterday).1
       = (HabitNotifier.decide_notify has_yesterday has_day_before).1
     ∧ is_Some (Logic.verdict_of
                  (Logic.decide_notify has_day_before has_yesterday)))
  ∧ (let w := Sim.ready Sim.noon_2024_03_11 Sim.one_log_yesterday_morning [] [] in
     Legacy.select_users_to_notify (Sim.db w) (Sim.clock w) = [Sim.user 1 "UTC"]
     ∧ (Logic.run_job "+15550199" w).1 = inr (0, 1, 0)
     ∧ (HabitNotifier.get_users_needing_notification Sim.tzdata w).1 = inr [])
  ∧ (let w := Sim.ready Sim.noon_2024_03_11 Sim.two_logs_day_before [] [] in
     Legacy.select_users_to_notify (Sim.db w) (Sim.clock w) = []
     ∧ (Logic.run_job "+15550199" w).1 = inr (1, 0, 0)
     ∧ (HabitNotifier.get_users_needing_notification Sim.tzdata w).1
       = inr [HabitNotifier.Entry 1 "user" (Some "+15550100")
                                  "Logged 2 days ago but not yesterday"]).
Proof.
  split; [|split].
  - intros has_day_before has_yesterday.
    rewrite logic_decide_notify_table, habit_notifier_decide_notify_table.
    by destruct has_day_before, has_yesterday.
  - repeat split; by vm_compute.
  - repeat split; by vm_compute.
Qed.

(** ** The window of local days *)

(** What [resolve_zone] does with an identifier the database knows. *)
Lemma resolve_zone_known {W} {R : Runtime W} tz_name zone (w : W) :
  ZoneInfo_py tz_name = Some zone →
  Logic.resolve_zone tz_name w = (inr zone, w).
Proof. intros H. unfold Logic.resolve_zone. by rewrite H. Qed.

(** ... and with one it does not know: a warning, then UTC. *)
Lemma resolve_zone_unknown {W} {R : Runtime W} tz_name utc (w : W) :
  ZoneInfo_py tz_name = None →
  ZoneInfo "UTC" = Some utc →
  Logic.resolve_zone tz_name w
  = (inr utc,
     logging_handle (Py.LogRecord Py.WARNING "invalid_timezone"
                                  [("tz", Py.of_opt_str tz_name)]) w).
Proof. intros H HU. unfold Logic.resolve_zone. rewrite H. cbn. by rewrite HU. Qed.

Lemma compute_window_known {W} {R : Runtime W} tz_name zone (w : W) :
  ZoneInfo_py tz_name = Some zone →
  Logic._compute_window tz_name w
  = (inr (Logic.window zone (datetime_now w).1), (datetime_now w).2).
Proof.
  intros H. unfold Logic._compute_window, mbind, M_bind, Eff.bind, now_utc.
  destruct (datetime_now w) as [now w1]. cbn [fst snd].
  by rewrite (resolve_zone_known _ zone).
Qed.

(** The distance between two local midnights, as instants: one day less
    what the offset gained from the first to the second. *)
Lemma to_utc_midnights zone d d' :
  Tz.to_utc zone (Tz.combine_min d') - Tz.to_utc zone (Tz.combine_min d)
  = Tz.SECONDS_PER_DAY * (d' - d)
    - (Tz.utcoffset zone (Tz.combine_min d') - Tz.utcoffset zone (Tz.combine_min d)).
Proof. unfold Tz.to_utc, Tz.combine_min. lia. Qed.

(** The window in terms of its yesterday. *)
Lemma window_unfold zone now :
  let local_today := Tz.date (Tz.astimezone zone now) in
  Logic.window zone now
  = (Tz.to_utc zone (Tz.combine_min (local_today - 2)),
     Tz.to_utc zone (Tz.combine_min (local_today - 1)),
     Tz.to_utc zone (Tz.combine_min local_today),
     local_today - 1).
Proof. reflexivity. Qed.

Lemma window_ordered_of_span zone now s1 s2 s3 local_yesterday :
  Tz.span_below_day zone →
  Logic.window zone now = (s1, s2, s3, local_yesterday) →
  s1 < s2 ∧ s2 < s3.
Proof.
  intros Hspan Hw. rewrite window_unfold in Hw. cbv zeta in Hw.
  injection Hw as <- <- <- _.
  set (today := Tz.date (Tz.astimezone zone now)).
  pose proof (to_utc_midnights zone (today - 2) (today - 1)) as H12.
  pose proof (to_utc_midnights zone (today - 1) today) as H23.
  pose proof (Hspan _ _ (Tz.utcoffset_in zone (Tz.combine_min (today - 2)))
                        (Tz.utcoffset_in zone (Tz.combine_min (today - 1)))) as B12.
  pose proof (Hspan _ _ (Tz.utcoffset_in zone (Tz.combine_min (today - 1)))
                        (Tz.utcoffset_in zone (Tz.combine_min today))) as B23.
  unfold Tz.SECONDS_PER_DAY in *. lia.
Qed.

(** What the clocks of the zone gain from the midnight that starts day
    [d] to the next midnight. *)
Definition gained (zone : Tz.zone) (d : Z) : Z :=
  Tz.utcoffset zone (Tz.combine_min (d + 1)) - Tz.utcoffset zone (Tz.combine_min d).

Lemma gained_below_day_of_span zone d :
  Tz.span_below_day zone → gained zone d < Tz.SECONDS_PER_DAY.
Proof. intros Hspan. apply Hspan; apply Tz.utcoffset_in. Qed.

(** C2, as the code has it.  For every identifier that the database
    resolves and in every state of the world, [_compute_window] returns;
    two consecutive instants of its window are strictly increasing exactly
    when the clocks of the zone gain less than 24 hours between the two
    local midnights.  All three are strictly increasing, then, for every
    zone whose offsets are all less than 24 hours apart. *)
Theorem C2_window_strictly_ordered {W} {R : Runtime W}
    (tz_name : option string) (zone : Tz.zone) (w : W) :
  ZoneInfo_py tz_name = Some zone →
  ∃ s1 s2 s3 local_yesterday w',
    Logic._compute_window tz_name w = (inr (s1, s2, s3, local_yesterday), w')
    ∧ (s1 < s2 ↔ gained zone (local_yesterday - 1) < Tz.SECONDS_PER_DAY)
    ∧ (s2 < s3 ↔ gained zone local_yesterday < Tz.SECONDS_PER_DAY)
    ∧ (Tz.span_below_day zone → s1 < s2 ∧ s2 < s3).
Proof.
  intros Hz. rewrite (compute_window_known _ zone) by done.
  set (now := (datetime_now w).1). set (today := Tz.date (Tz.astimezone zone now)).
  exists (Tz.to_utc zone (Tz.combine_min (today - 2))),
         (Tz.to_utc zone (Tz.combine_min (today - 1))),
         (Tz.to_utc zone (Tz.combine_min today)), (today - 1), (datetime_now w).2.
  split; [done|].
  pose proof (to_utc_midnights zone (today - 2) (today - 1)) as H12.
  pose proof (to_utc_midnights zone (today - 1) today) as H23.
  unfold gained.
  replace (today - 1 - 1 + 1) with (today - 1) by lia.
  replace (today - 1 - 1) with (today - 2) by lia.
  replace (today - 1 + 1) with today by lia.
  unfold Tz.SECONDS_PER_DAY in *.
  split; [lia|]. split; [lia|].
  intros Hspan. eapply window_ordered_of_span; [done|apply window_unfold].
Qed.

(** New York on 2024-03-11T16:00:00Z: 24 hours, then 23 hours. *)
Lemma C2_window_strictly_ordered_witness :
  ∃ s1 s2 s3 local_yesterday w',
    Logic._compute_window (Some "America/New_York")
                          (Sim.ready 1710172800 Sim.five_users [] [])
    = (inr (s1, s2, s3, local_yesterday), w')
    ∧ s1 < s2 ∧ s2 < s3.
Proof.
  destruct (C2_window_strictly_ordered (R := Sim.runtime)
              (Some "America/New_York") Tz.America_New_York
              (Sim.ready 1710172800 Sim.five_users [] []) eq_refl)
    as (s1 & s2 & s3 & ly & w' & Hrun & _ & _ & Hspan).
  exists s1, s2, s3, ly, w'. split; [exact Hrun|].
  apply Hspan, Tz.span_below_dayb_spec. reflexivity.
Defined.

(** C2, as it is stated, fails.  Pacific/Apia is a valid identifier; at
    2011-12-30T11:00:00Z it is 01:00 on 31 December there, and the local
    midnights of 30 and 31 December are the same instant, because 30
    December was skipped: the start of yesterday equals the start of
    today. *)
Lemma C2_apia_yesterday_equals_today :
  let w := Sim.ready 1325242800 Sim.five_users [] [] in
  ZoneInfo_py (Some "Pacific/Apia") = Some Tz.Pacific_Apia
  ∧ (Logic._compute_window (Some "Pacific/Apia") w).1
    = inr (1325152800, 1325239200, 1325239200, 15338)
  ∧ ¬ (∀ (tz_name : option string) (zone : Tz.zone) (w : Sim.world),
         ZoneInfo_py tz_name = Some zone →
         ∃ s1 s2 s3 local_yesterday w',
           Logic._compute_window tz_name w = (inr (s1, s2, s3, local_yesterday), w')
           ∧ s1 < s2 ∧ s2 < s3).
Proof.
  cbv zeta. split; [reflexivity|]. split; [by vm_compute|].
  intros H.
  destruct (H (Some "Pacific/Apia") Tz.Pacific_Apia
              (Sim.ready 1325242800 Sim.five_users [] []) eq_refl)
    as (s1 & s2 & s3 & ly & w' & Heq & H12 & H23).
  vm_compute in Heq. injection Heq as <- <- <- _ _. lia.
Qed.

(** ** Purity of the calculator and of the classifier *)

(** The zone that [resolve_zone] answers, or the exception it raises: a
    function of the identifier alone. *)
Definition resolved {W} {R : Runtime W} (tz_name : option string)
  : Eff.exn + Tz.zone :=
  match ZoneInfo_py tz_name with
  | Some zone => inr zone
  | None =>
      match ZoneInfo "UTC" with
      | Some zone => inr zone
      | None => inl (Eff.Exception "No time zone found with key UTC")
      end
  end.

Lemma resolve_zone_value {W} {R : Runtime W} tz_name (w : W) :
  (Logic.resolve_zone tz_name w).1 = resolved tz_name.
Proof.
  unfold Logic.resolve_zone, resolved.
  destruct (ZoneInfo_py tz_name); [done|].
  unfold mbind, M_bind, Eff.bind, log, Eff.modify.
  by destruct (ZoneInfo "UTC").
Qed.

Lemma compute_window_value {W} {R : Runtime W} tz_name (w : W) :
  (Logic._compute_window tz_name w).1
  = match resolved tz_name with
    | inr zone => inr (Logic.window zone (datetime_now w).1)
    | inl e => inl e
    end.
Proof.
  unfold Logic._compute_window, mbind, M_bind, Eff.bind, now_utc.
  destruct (datetime_now w) as [now w1]. cbn [fst].
  rewrite <- (resolve_zone_value tz_name w1).
  by destruct (Logic.resolve_zone tz_name w1) as [[e|zone] w2].
Qed.

Lemma classify_days_value {W} {R : Runtime W} tz_name created_list (w : W) :
  (Logic._classify_days tz_name created_list w).1
  = match resolved tz_name with
    | inr zone => inr (Logic.classify zone created_list)
    | inl e => inl e
    end.
Proof.
  unfold Logic._classify_days, mbind, M_bind, Eff.bind.
  rewrite <- (resolve_zone_value tz_name w).
  by destruct (Logic.resolve_zone tz_name w) as [[e|zone] w2].
Qed.

(** The set that the classifier builds holds exactly the local dates of
    the logs: order and repetition of the logs do not matter. *)
Lemma elem_of_classify z created_list d :
  d ∈ Logic.classify z created_list
  ↔ ∃ dt, dt ∈ created_list ∧ Logic.local_date z dt = d.
Proof.
  unfold Logic.classify.
  assert (∀ acc : gset Z,
            d ∈ fold_left (λ days dt, {[Logic.local_date z dt]} ∪ days)
                          created_list acc
            ↔ d ∈ acc ∨ ∃ dt, dt ∈ created_list ∧ Logic.local_date z dt = d) as H.
  { induction created_list as [|dt rest IH]; intros acc; simpl.
    - split; [by left|]. intros [?|(dt & Hdt & _)]; [done|].
      by apply not_elem_of_nil in Hdt.
    - rewrite IH, elem_of_union, elem_of_singleton. split.
      + intros [[->|?]|(dt' & ? & ?)].
        * right. exists dt. split; [apply elem_of_cons; by left|done].
        * by left.
        * right. exists dt'. split; [apply elem_of_cons; by right|done].
      + intros [?|(dt' & [->|?]%elem_of_cons & ?)].
        * left. by right.
        * left. by left.
        * right. by exists dt'. }
  rewrite H. split; [|by right].
  intros [Hd|?]; [|done]. by apply not_elem_of_empty in Hd.
Qed.

(** C8.  The value of [_compute_window] is the same in any two states of
    the world in which the clock reads the same instant, and the value of
    [_classify_days] is the same in any two states at all: each is a
    function of the identifier and, respectively, of the instant and of the
    list of logs. *)
Theorem C8_calculator_and_classifier_pure {W} {R : Runtime W}
    (tz_name : option string) (created_list : list Py.datetime) (w1 w2 : W) :
  ((datetime_now w1).1 = (datetime_now w2).1 →
   (Logic._compute_window tz_name w1).1 = (Logic._compute_window tz_name w2).1)
  ∧ (Logic._classify_days tz_name created_list w1).1
    = (Logic._classify_days tz_name created_list w2).1.
Proof.
  split.
  - intros Hnow. rewrite !compute_window_value. by rewrite Hnow.
  - by rewrite !classify_days_value.
Qed.

(** Two worlds at the same instant that differ in everything else. *)
Lemma C8_calculator_and_classifier_pure_witness :
  (Logic._compute_window (Some "America/Havana")
     (Sim.ready Sim.noon_2024_03_11 Sim.five_users [] [])).1
  = (Logic._compute_window (Some "America/Havana")
       (Sim.World Sim.noon_2024_03_11 Sim.two_logs_day_before false false
                  [true] [true] [] [])).1.
Proof.
  apply (C8_calculator_and_classifier_pure (Some "America/Havana") []).
  reflexivity.
Defined.

(** ** Identifiers that do not resolve *)

(** [logic.py]: an identifier that [ZoneInfo] refuses (unknown, empty or
    [None]) is replaced by UTC in the calculator and in the classifier; both
    return, and the only trace is one warning record. *)
Lemma logic_unresolved_zone_falls_back {W} {R : Runtime W}
    (tz_name : option string) (utc : Tz.zone)
    (created_list : list Py.datetime) (w : W) :
  ZoneInfo_py tz_name = None →
  ZoneInfo "UTC" = Some utc →
  let warning := Py.LogRecord Py.WARNING "invalid_timezone"
                              [("tz", Py.of_opt_str tz_name)] in
  Logic._compute_window tz_name w
  = (inr (Logic.window utc (datetime_now w).1),
     logging_handle warning (datetime_now w).2)
  ∧ Logic._classify_days tz_name created_list w
    = (inr (Logic.classify utc created_list), logging_handle warning w).
Proof.
  intros Hz Hutc warning. split.
  - unfold Logic._compute_window, mbind, M_bind, Eff.bind, now_utc.
    destruct (datetime_now w) as [now w1]. cbn [fst snd].
    by rewrite (resolve_zone_unknown _ utc).
  - unfold Logic._classify_days, mbind, M_bind, Eff.bind.
    by rewrite (resolve_zone_unknown _ utc).
Qed.

(** [habit_notifier.py], line 118: UTC stands in for a missing or empty
    identifier only; a name that pytz does not know raises. *)
Lemma habit_notifier_user_tz_of {W} {R : Runtime W}
    (pytz_timezone : string → option Tz.zone) (time_zone : option string) (w : W) :
  HabitNotifier.user_tz_of pytz_timezone time_zone w
  = match time_zone with
    | None => (inr Tz.UTC, w)
    | Some name =>
        if String.eqb name "" then (inr Tz.UTC, w)
        else match pytz_timezone name with
             | Some tz => (inr tz, w)
             | None => (inl (Eff.Exception "UnknownTimeZoneError"), w)
             end
    end.
Proof.
  unfold HabitNotifier.user_tz_of, Py.truthy.
  destruct time_zone as [name|]; [|done]. cbn.
  destruct (String.eqb name ""); [done|]. cbn.
  by destruct (pytz_timezone name).
Qed.

(** C4, at the input where [habit_notifier.py] departs from it.  The
    identifier Mars/Phobos is unknown to the database.  The calculator and
    the classifier of [logic.py] answer as for UTC, and [run_job] counts the
    three users without an error.  [get_users_needing_notification] raises
    on the same tables: no user at all is reported. *)
Theorem C4_unknown_zone_logic_falls_back_habit_notifier_raises :
  let w := Sim.ready Sim.noon_2024_03_11 Sim.unknown_zone_user [] [] in
  Sim.tzdata "Mars/Phobos" = None
  ∧ (Logic._compute_window (Some "Mars/Phobos") w).1
    = inr (Logic.window Tz.UTC Sim.noon_2024_03_11)
  ∧ (Logic._classify_days (Some "Mars/Phobos") [Py.Naive 1710064800] w).1
    = inr (Logic.classify Tz.UTC [Py.Naive 1710064800])
  ∧ (Logic.run_job "+15550199" w).1 = inr (3, 0, 0)
  ∧ (HabitNotifier.get_users_needing_notification Sim.tzdata w).1
    = inl (Eff.Exception "UnknownTimeZoneError").
Proof. cbv zeta. repeat split; by vm_compute. Qed.

(** ** Days of 23 and 25 hours *)

(** [logic.py]: when the clocks of the zone are an hour ahead (behind) at
    the second of two consecutive local midnights, the two instants are 23
    (25) hours apart. *)
Lemma logic_day_length_follows_the_zone zone d :
  let start := Tz.to_utc zone (Tz.combine_min d) in
  let next := Tz.to_utc zone (Tz.combine_min (d + 1)) in
  let gained := Tz.utcoffset zone (Tz.combine_min (d + 1))
                - Tz.utcoffset zone (Tz.combine_min d) in
  next - start = Tz.SECONDS_PER_DAY - gained
  ∧ (gained = 3600 → next - start = 23 * 3600)
  ∧ (gained = -3600 → next - start = 25 * 3600).
Proof.
  cbv zeta. rewrite to_utc_midnights. unfold Tz.SECONDS_PER_DAY. lia.
Qed.

(** The windows of [logic.py] around three transitions: New York in spring
    (24 h, then 23 h) and in autumn (24 h, then 25 h), and Havana, where the
    clocks go forward at local midnight (24 h, then 23 h). *)
Example logic_windows_across_transitions :
  Logic.window Tz.America_New_York 1710172800
  = (1709960400, 1709960400 + 24 * 3600, 1709960400 + 47 * 3600, 19792)
  ∧ Logic.window Tz.America_New_York 1730721600
    = (1730520000, 1730520000 + 24 * 3600, 1730520000 + 49 * 3600, 20030)
  ∧ Logic.window Tz.America_Havana 1710158400
    = (1709960400, 1709960400 + 24 * 3600, 1709960400 + 47 * 3600, 19792).
Proof. repeat split; by vm_compute. Qed.

(** [habit_notifier.py]: the three boundaries are always exactly 24 hours
    apart, whatever the zone does in between. *)
Lemma habit_notifier_days_are_24h user_tz now :
  let b := HabitNotifier.day_boundaries user_tz now in
  HabitNotifier.today_start_utc b - HabitNotifier.yesterday_start_utc b
  = 24 * 3600
  ∧ HabitNotifier.yesterday_start_utc b - HabitNotifier.two_days_ago_start_utc b
    = 24 * 3600.
Proof.
  cbv zeta. unfold HabitNotifier.day_boundaries.
  cbn [HabitNotifier.today_start_utc HabitNotifier.yesterday_start_utc
       HabitNotifier.two_days_ago_start_utc].
  unfold Tz.SECONDS_PER_DAY. lia.
Qed.

(** C5, at the input where [habit_notifier.py] departs from it.  New York,
    2024-03-11T16:00:00Z; the clocks went forward on 10 March, between the
    starts of yesterday and of today.  [logic.py] places the two at
    05:00Z and 04:00Z, 23 hours apart.  [habit_notifier.py] places them 24
    hours apart, for this and for every zone and instant, and its start of
    yesterday, 04:00Z, is not the local midnight: it is 23:00 of 9 March in
    New York. *)
Theorem C5_habit_notifier_assumes_24h_days :
  let zone := Tz.America_New_York in
  let now := 1710172800 in
  let b := HabitNotifier.day_boundaries zone now in
  Logic.window zone now = (1709960400, 1710046800, 1710129600, 19792)
  ∧ 1710129600 - 1710046800 = 23 * 3600
  ∧ HabitNotifier.today_start_utc b = 1710129600
  ∧ HabitNotifier.yesterday_start_utc b = 1710129600 - 24 * 3600
  ∧ HabitNotifier.yesterday_start_utc b ≠ Tz.to_utc zone (Tz.combine_min 19792)
  ∧ Tz.date (Tz.astimezone zone (HabitNotifier.yesterday_start_utc b)) = 19791
  ∧ (∀ user_tz t,
       let b' := HabitNotifier.day_boundaries user_tz t in
       HabitNotifier.today_start_utc b' - HabitNotifier.yesterday_start_utc b'
       = 24 * 3600
       ∧ HabitNotifier.yesterday_start_utc b'
         - HabitNotifier.two_days_ago_start_utc b' = 24 * 3600).
Proof.
  cbv zeta.
  split; [by vm_compute|]. split; [reflexivity|].
  split; [by vm_compute|]. split; [by vm_compute|].
  split; [by vm_compute|]. split; [by vm_compute|].
  intros user_tz t. apply habit_notifier_days_are_24h.
Qed.

(** ** The logs that are read *)

(** The user has a log with the creation time [t]: a row of [Log] whose
    habit is a row of [Habit] of this user. *)
Definition user_log (db : Schema.tables) (user_id t : Z) : Prop :=
  ∃ l h, l ∈ Schema.Log db ∧ h ∈ Schema.Habit db
         ∧ Schema.h_id h = Schema.l_habit_id l
         ∧ Schema.h_user_id h = user_id
         ∧ Schema.l_created_at l = t.

Lemma elem_of_log_join_habit db l h :
  (l, h) ∈ Schema.log_join_habit db
  ↔ l ∈ Schema.Log db ∧ h ∈ Schema.Habit db ∧ Schema.h_id h = Schema.l_habit_id l.
Proof.
  unfold Schema.log_join_habit. rewrite list_elem_of_bind. split.
  - intros (l' & Hin & Hl). apply list_elem_of_bind in Hin as (h' & Hin & Hh).
    destruct (Z.eqb_spec (Schema.h_id h') (Schema.l_habit_id l')) as [Heq|Hne].
    + apply list_elem_of_singleton in Hin. injection Hin as -> ->. done.
    + by apply not_elem_of_nil in Hin.
  - intros (Hl & Hh & Heq). exists l. split; [|done].
    apply list_elem_of_bind. exists h. split; [|done].
    rewrite Heq, Z.eqb_refl. by apply list_elem_of_singleton.
Qed.

(** [db.fetch_user_logs_between] selects the half-open interval. *)
Lemma elem_of_select_user_logs_between db user_id start_utc end_utc t :
  t ∈ Db.select_user_logs_between db user_id start_utc end_utc
  ↔ user_log db user_id t ∧ start_utc ≤ t ∧ t < end_utc.
Proof.
  unfold Db.select_user_logs_between, user_log. rewrite list_elem_of_fmap. split.
  - intros ([l h] & -> & Hin). apply list_elem_of_filter in Hin as [HP Hin].
    apply elem_of_log_join_habit in Hin as (Hl & Hh & Heq).
    cbn in HP. apply Is_true_true in HP.
    apply andb_true_iff in HP as [HP Hend]. apply andb_true_iff in HP as [Hu Hstart].
    cbn. split; [exists l, h; repeat split; try done; lia | lia].
  - intros ((l & h & Hl & Hh & Heq & Hu & Ht) & Hstart & Hend).
    exists (l, h). split; [done|]. apply list_elem_of_filter. split.
    + cbn. apply Is_true_true. rewrite !andb_true_iff. lia.
    + by apply elem_of_log_join_habit.
Qed.

(** The query of [habit_notifier.py] bounds the creation time from below
    only. *)
Lemma elem_of_select_logs_since db user_id since_utc t :
  t ∈ HabitNotifier.select_logs_since db user_id since_utc
  ↔ user_log db user_id t ∧ since_utc ≤ t.
Proof.
  unfold HabitNotifier.select_logs_since, user_log. rewrite list_elem_of_fmap. split.
  - intros ([l h] & -> & Hin). apply list_elem_of_filter in Hin as [HP Hin].
    apply elem_of_log_join_habit in Hin as (Hl & Hh & Heq).
    cbn in HP. apply Is_true_true in HP.
    apply andb_true_iff in HP as [Hu Hstart].
    cbn. split; [exists l, h; repeat split; try done; lia | lia].
  - intros ((l & h & Hl & Hh & Heq & Hu & Ht) & Hstart).
    exists (l, h). split; [done|]. apply list_elem_of_filter. split.
    + cbn. apply Is_true_true. rewrite !andb_true_iff. lia.
    + by apply elem_of_log_join_habit.
Qed.

(** Lines 67 to 73 of [run_job]: what is done with the verdict. *)
Definition act_on {W} {R : Runtime W} (twilio_from : string) (user_id : Z)
    (phone : string) (v : bool * string) : Eff.M (Logic.counters * W) unit :=
  if v.1 then
    Eff.lift (Notifier.send_sms twilio_from phone Logic.body_text);;
    Logic.incr_notified;;
    Eff.lift (log Py.INFO "notified"
                  [("user_id", Py.VInt user_id); ("reason", Py.VStr v.2)])
  else Logic.incr_skipped.

(** One turn of [run_job] for a user whose window is computed and whose
    query returns, whether the zone is the user's own or the fallback: the
    verdict is taken from the rows that the query selects between the first
    and the third instant of the window. *)
Lemma try_user_query_returns {W} {R : Runtime W} twilio_from user_id tz_name phone
    (c : Logic.counters) (w w1 w2 : W)
    (window_start s2 today_start local_yesterday : Z) (logs : list Py.datetime) :
  Logic._compute_window tz_name w
  = (inr (window_start, s2, today_start, local_yesterday), w1) →
  Db.fetch_user_logs_between user_id window_start today_start w1 = (inr logs, w2) →
  ∃ zone db,
    resolved tz_name = inr zone
    ∧ Logic.window zone (datetime_now w).1
      = (window_start, s2, today_start, local_yesterday)
    ∧ (mysql_execute w1).1 = inr db
    ∧ logs = Py.Naive <$> Db.select_user_logs_between db user_id
                            window_start today_start
    ∧ Logic.try_user twilio_from user_id tz_name phone (c, w)
      = act_on twilio_from user_id phone
          (Logic.evaluate (Logic.classify zone logs) local_yesterday)
          (c, (Logic.resolve_zone tz_name w2).2).
Proof.
  intros Hwin Hfetch.
  pose proof (compute_window_value tz_name w) as Hv. rewrite Hwin in Hv.
  cbn [fst] in Hv.
  destruct (resolved tz_name) as [e|zone] eqn:Hres; [done|].
  assert (Logic.window zone (datetime_now w).1
          = (window_start, s2, today_start, local_yesterday)) as Hw
    by congruence.
  clear Hv.
  assert (∃ db, mysql_execute w1 = (inr db, w2)
                ∧ logs = Py.Naive <$> Db.select_user_logs_between db user_id
                                        window_start today_start)
    as (db & Hexec & Hlogs).
  { revert Hfetch.
    unfold Db.fetch_user_logs_between, Db._get_conn, mbind, M_bind, Eff.bind,
      Eff.ret.
    destruct (db_pool_ready w1); [|done].
    destruct (mysql_execute w1) as [[e|db] w']; [done|].
    intros [= <- <-]. by exists db. }
  exists zone, db. split; [done|]. split; [done|].
  split; [by rewrite Hexec|]. split; [done|].
  unfold Logic.try_user, mbind, M_bind, Eff.bind, Eff.lift. cbn [fst snd].
  rewrite Hwin. cbn [fst snd]. rewrite Hfetch. cbn [fst snd].
  pose proof (classify_days_value tz_name logs w2) as Hc. rewrite Hres in Hc.
  unfold Logic._classify_days, mbind, M_bind, Eff.bind in Hc |- *.
  destruct (Logic.resolve_zone tz_name w2) as [[e|z] w3]; cbn [fst snd] in *;
    [done|].
  injection Hc as ->. cbn [Eff.ret fst snd].
  unfold act_on, mbind, M_bind, Eff.bind, Eff.lift.
  destruct (Logic.evaluate _ local_yesterday) as [[|] why]; cbn [fst snd];
    reflexivity.
Qed.

(** C7, as the code has it.  In [run_job], for every user whose window is
    computed and whose query returns, with the user's own zone or with UTC
    as the fallback, the verdict is taken from exactly the logs of the user
    with [windowStart <= t < todayStart]: a log at [windowStart] is among
    them exactly when [windowStart < todayStart], which holds for every
    zone whose offsets differ by less than a day, and no log at or after
    [todayStart] is.  The query of [habit_notifier.py] keeps every log of
    the user from its lower bound on; it has no upper bound. *)
Theorem C7_logs_consulted {W} {R : Runtime W}
    (twilio_from : string) (user_id : Z) (tz_name : option string) (phone : string)
    (c : Logic.counters) (w w1 w2 : W)
    (window_start s2 today_start local_yesterday : Z) (logs : list Py.datetime) :
  Logic._compute_window tz_name w
  = (inr (window_start, s2, today_start, local_yesterday), w1) →
  Db.fetch_user_logs_between user_id window_start today_start w1 = (inr logs, w2) →
  ∃ zone db,
    let consulted :=
      Db.select_user_logs_between db user_id window_start today_start in
    resolved tz_name = inr zone
    ∧ Logic.window zone (datetime_now w).1
      = (window_start, s2, today_start, local_yesterday)
    ∧ (mysql_execute w1).1 = inr db
    ∧ logs = Py.Naive <$> consulted
    ∧ Logic.try_user twilio_from user_id tz_name phone (c, w)
      = act_on twilio_from user_id phone
          (Logic.evaluate (Logic.classify zone (Py.Naive <$> consulted))
                          local_yesterday)
          (c, (Logic.resolve_zone tz_name w2).2)
    ∧ (∀ t, t ∈ consulted
            ↔ user_log db user_id t ∧ window_start ≤ t ∧ t < today_start)
    ∧ (window_start ∈ consulted
       ↔ user_log db user_id window_start ∧ window_start < today_start)
    ∧ (Tz.span_below_day zone → window_start < today_start)
    ∧ (∀ t, today_start ≤ t → t ∉ consulted)
    ∧ (∀ since_utc t,
         t ∈ HabitNotifier.select_logs_since db user_id since_utc
         ↔ user_log db user_id t ∧ since_utc ≤ t).
Proof.
  intros Hwin Hfetch.
  destruct (try_user_query_returns twilio_from user_id tz_name phone c w w1 w2
              window_start s2 today_start local_yesterday logs Hwin Hfetch)
    as (zone & db & Hres & Hw & Hexec & Hlogs & Htry).
  exists zone, db. cbv zeta.
  split; [done|]. split; [done|]. split; [done|]. split; [done|].
  split; [by rewrite <- Hlogs|].
  split; [intros t; apply elem_of_select_user_logs_between|].
  split.
  { rewrite elem_of_select_user_logs_between. split; [intros (? & ? & ?)|intros [? ?]].
    - done.
    - split; [done|lia]. }
  split.
  { intros Hspan.
    destruct (window_ordered_of_span zone (datetime_now w).1 window_start s2
                today_start local_yesterday Hspan Hw). lia. }
  split.
  { intros t Ht Hin. apply elem_of_select_user_logs_between in Hin. lia. }
  intros since_utc t. apply elem_of_select_logs_since.
Qed.

(** User 4 of the five users, at noon of 2024-03-11, with a zone that the
    database does not know, so that UTC is used: the logs of
    2024-03-09T00:00:00Z, the very start of the window, and of
    2024-03-10T23:59:59Z are read, and the user is skipped. *)
Lemma C7_logs_consulted_witness :
  let w := Sim.ready Sim.noon_2024_03_11 Sim.five_users [] [] in
  let w1 := (Logic._compute_window (Some "Mars/Phobos") w).2 in
  Db.select_user_logs_between Sim.five_users 4 1709942400 1710115200
  = [1709942400; 1710115199]
  ∧ ∃ zone db,
      resolved (Some "Mars/Phobos") = inr zone
      ∧ (mysql_execute w1).1 = inr db
      ∧ 1709942400 ∈ Db.select_user_logs_between db 4 1709942400 1710115200
      ∧ Logic.try_user "+15550199" 4 (Some "Mars/Phobos") "+15550100"
                       (Logic.Counters 0 0 0, w)
        = act_on "+15550199" 4 "+15550100"
            (Logic.evaluate
               (Logic.classify zone
                  (Py.Naive <$> Db.select_user_logs_between db 4
                                  1709942400 1710115200)) 19792)
            (Logic.Counters 0 0 0, (Logic.resolve_zone (Some "Mars/Phobos") w1).2).
Proof.
  cbv zeta. split; [reflexivity|].
  destruct (C7_logs_consulted (R := Sim.runtime) "+15550199" 4
              (Some "Mars/Phobos") "+15550100" (Logic.Counters 0 0 0)
              (Sim.ready Sim.noon_2024_03_11 Sim.five_users [] [])
              (Logic._compute_window (Some "Mars/Phobos")
                 (Sim.ready Sim.noon_2024_03_11 Sim.five_users [] [])).2
              (Logic._compute_window (Some "Mars/Phobos")
                 (Sim.ready Sim.noon_2024_03_11 Sim.five_users [] [])).2
              1709942400 1710028800 1710115200 19792
              (Py.Naive <$> [1709942400; 1710115199]))
    as (zone & db & Hres & _ & Hexec & _ & Htry & _ & Hstart & _).
  - by vm_compute.
  - by vm_compute.
  - exists zone, db. split; [done|]. split; [done|]. split; [|done].
    apply Hstart. injection Hexec as <-. split; [|done].
    exists (Schema.LogRow 3 4 1709942400), (Schema.HabitRow 4 4).
    repeat split; try done.
    + apply list_elem_of_In. cbn. tauto.
    + apply list_elem_of_In. cbn. tauto.
Defined.

(** C7, as it is stated, fails for [habit_notifier.py].  User 5 has one
    log, of 2024-03-11T00:00:00Z, the start of today in UTC.  At noon of
    that day the query of [habit_notifier.py] fetches it, although it is
    not before the start of today; the query of [db.py] leaves it out. *)
Lemma C7_habit_notifier_fetches_today :
  let b := HabitNotifier.day_boundaries Tz.UTC Sim.noon_2024_03_11 in
  HabitNotifier.select_logs_since Sim.five_users 5
    (HabitNotifier.two_days_ago_start_utc b) = [1710115200]
  ∧ HabitNotifier.today_start_utc b = 1710115200
  ∧ Db.select_user_logs_between Sim.five_users 5
      (Logic.window Tz.UTC Sim.noon_2024_03_11).1.1.1
      (Logic.window Tz.UTC Sim.noon_2024_03_11).1.2 = []
  ∧ ¬ (∀ db user_id user_tz now t,
         let b := HabitNotifier.day_boundaries user_tz now in
         t ∈ HabitNotifier.select_logs_since db user_id
               (HabitNotifier.two_days_ago_start_utc b) →
         t < HabitNotifier.today_start_utc b).
Proof.
  cbv zeta. split; [by vm_compute|]. split; [by vm_compute|].
  split; [by vm_compute|].
  intros H.
  specialize (H Sim.five_users 5 Tz.UTC Sim.noon_2024_03_11 1710115200).
  assert (1710115200 < 1710115200) as Habs; [|lia].
  apply H. apply list_elem_of_singleton. reflexivity.
Qed.

(** ** The loop over the users *)

(** How one turn of the loop ends. *)
Inductive outcome : Type := Notified | Skipped | Errored.

(** The one counter that an outcome adds to. *)
Definition bump (o : outcome) (c : Logic.counters) : Logic.counters :=
  match o with
  | Notified => Logic.Counters (Logic.notified c + 1) (Logic.skipped c) (Logic.errors c)
  | Skipped => Logic.Counters (Logic.notified c) (Logic.skipped c + 1) (Logic.errors c)
  | Errored => Logic.Counters (Logic.notified c) (Logic.skipped c) (Logic.errors c + 1)
  end.

Definition total (c : Logic.counters) : Z :=
  Logic.notified c + Logic.skipped c + Logic.errors c.

Section Loop.
Context {W : Type} {R : Runtime W}.
Variable twilio_from : string.

(** Does the body of the [try] raise for this user, in this state? *)
Definition raises (u : Z * option string * string) (st : Logic.counters * W) : bool :=
  negb (Eff.returned (Logic.try_user twilio_from u.1.1 u.1.2 u.2 st).1).

(** For each user in turn, whether the body of the [try] raised, in the
    state in which the loop reached that user. *)
Fixpoint turns (users : list (Z * option string * string))
    (st : Logic.counters * W) : list bool :=
  match users with
  | [] => []
  | u :: rest =>
      raises u st :: turns rest (Logic.for_user twilio_from u st).2
  end.

Definition count (b : bool) (l : list bool) : Z :=
  Z.of_nat (length (filter (fun x => x = b) l)).

Lemma lift_run {L A} (m : Eff.M W A) (l : L) (w : W) :
  Eff.lift m (l, w) = ((m w).1, (l, (m w).2)).
Proof. unfold Eff.lift. cbn [fst snd]. by destruct (m w). Qed.

(** The body of the [try] leaves the counters alone when it raises, and
    adds one to [notified] or to [skipped] when it returns. *)
Lemma try_user_counters user_id tz_name phone c w :
  match Logic.try_user twilio_from user_id tz_name phone (c, w) with
  | (inl _, (c', _)) => c' = c
  | (inr _, (c', _)) => c' = bump Notified c ∨ c' = bump Skipped c
  end.
Proof.
  unfold Logic.try_user, mbind, M_bind, Eff.bind. rewrite lift_run.
  destruct (Logic._compute_window tz_name w) as [[e|[[[s1 s2] s3] ly]] w1];
    cbn [fst snd]; [done|].
  rewrite lift_run.
  destruct (Db.fetch_user_logs_between user_id s1 s3 w1) as [[e|logs] w2];
    cbn [fst snd]; [done|].
  rewrite lift_run.
  destruct (Logic._classify_days tz_name logs w2) as [[e|days] w3];
    cbn [fst snd]; [done|].
  destruct (Logic.evaluate days ly) as [[|] why].
  - rewrite lift_run.
    destruct (Notifier.send_sms twilio_from phone Logic.body_text w3)
      as [[e|[]] w4]; cbn [fst snd]; [done|].
    unfold Logic.incr_notified, Eff.modify. cbn [fst snd].
    rewrite lift_run. cbn. by left.
  - unfold Logic.incr_skipped, Eff.modify. cbn. by right.
Qed.

(** One turn of the loop always returns and adds one to exactly one
    counter: to [errors] when the body of the [try] raised, and to
    [notified] or [skipped] when it did not. *)
Lemma for_user_outcome u c w :
  ∃ o w', Logic.for_user twilio_from u (c, w) = (inr tt, (bump o c, w'))
          ∧ (o = Errored ↔ raises u (c, w) = true).
Proof.
  destruct u as [[user_id tz_name] phone].
  unfold raises, Logic.for_user, Eff.try_except. cbn [fst snd].
  pose proof (try_user_counters user_id tz_name phone c w) as H.
  destruct (Logic.try_user twilio_from user_id tz_name phone (c, w))
    as [[e|[]] [c' w']]; cbn [fst Eff.returned negb].
  - subst c'. unfold mbind, M_bind, Eff.bind, Logic.incr_errors, Eff.modify.
    cbn [fst snd]. rewrite lift_run. cbn [fst snd].
    eexists Errored, _. split; [reflexivity|done].
  - destruct H as [->| ->].
    + exists Notified, w'. split; [done|]. split; discriminate.
    + exists Skipped, w'. split; [done|]. split; discriminate.
Qed.

Lemma total_bump o c : total (bump o c) = total c + 1.
Proof. destruct o; unfold total; cbn; lia. Qed.

Lemma count_cons b x l :
  count b (x :: l) = (if bool_decide (x = b) then 1 else 0) + count b l.
Proof.
  unfold count. rewrite filter_cons.
  case_bool_decide; destruct (decide (x = b)); try done; cbn [length]; lia.
Qed.

(** The loop returns for every list of users and every state; [errors]
    grows by the number of turns that raised, [notified] and [skipped]
    together by the number of the other turns. *)
Lemma loop_counts users c w :
  ∃ c' w', Eff.for_each users (Logic.for_user twilio_from) (c, w)
           = (inr tt, (c', w'))
           ∧ Logic.errors c' = Logic.errors c + count true (turns users (c, w))
           ∧ Logic.notified c' + Logic.skipped c'
             = Logic.notified c + Logic.skipped c + count false (turns users (c, w))
           ∧ Logic.notified c ≤ Logic.notified c'
           ∧ Logic.skipped c ≤ Logic.skipped c'.
Proof.
  revert c w. induction users as [|u rest IH]; intros c w.
  - exists c, w. cbn. unfold count. cbn. repeat split; lia.
  - destruct (for_user_outcome u c w) as (o & w1 & Hu & Ho).
    destruct (IH (bump o c) w1) as (c' & w' & Hrest & He & Hns & Hn & Hs).
    exists c', w'. split.
    { cbn [Eff.for_each]. unfold Eff.bind. by rewrite Hu. }
    cbn [turns]. rewrite Hu. cbn [snd]. rewrite !count_cons.
    rewrite He, Hns. clear Hrest He Hns.
    destruct (raises u (c, w)) eqn:Hr.
    + assert (o = Errored) as -> by by apply Ho.
      rewrite bool_decide_eq_true_2, bool_decide_eq_false_2 by done.
      cbn in *. repeat split; lia.
    + assert (o ≠ Errored) as Hne by (intros ?%Ho; congruence).
      rewrite bool_decide_eq_false_2, bool_decide_eq_true_2 by done.
      destruct o; [| |done]; cbn in *; repeat split; lia.
Qed.

Lemma count_total l : count true l + count false l = Z.of_nat (length l).
Proof.
  induction l as [|x l IH]; [done|].
  rewrite !count_cons. cbn [length].
  destruct x; repeat case_bool_decide; try done; lia.
Qed.

Lemma length_turns users st : length (turns users st) = length users.
Proof.
  revert st. induction users as [|u rest IH]; intros st; [done|].
  cbn. by rewrite IH.
Qed.

End Loop.

Section Job.
Context {W : Type} {R : Runtime W}.
Variable twilio_from : string.




Lemma run_job_of_loop (w w1 w' : W) users c' :
  Db.fetch_users_with_phones w = (inr users, w1) →
  Eff.for_each users (Logic.for_user twilio_from) (Logic.Counters 0 0 0, w1) = (inr tt, (c', w')) →
  Logic.run_job twilio_from w
  = (inr (Logic.notified c', Logic.skipped c', Logic.errors c'), w').
Proof.
  intros Hu Hloop. unfold Logic.run_job, mbind, M_bind, Eff.bind.
  rewrite Hu. unfold Eff.with_locals. by rewrite Hloop.
Qed.


(** C10.  For every population that the storage returns, [run_job] returns
    three counters that are not negative and add up to the number of
    users; every turn of the loop adds one to exactly one of them. *)
Theorem C10_counters_add_up
    (users : list (Z * option string * string)) (w w1 : W) :
  Db.fetch_users_with_phones w = (inr users, w1) →
  (∃ notified skipped errors w',
     Logic.run_job twilio_from w = (inr (notified, skipped, errors), w')
     ∧ 0 ≤ notified ∧ 0 ≤ skipped ∧ 0 ≤ errors
     ∧ notified + skipped + errors = Z.of_nat (length users))
  ∧ (∀ u c w0, ∃ o w0',
       Logic.for_user twilio_from u (c, w0) = (inr tt, (bump o c, w0'))
       ∧ total (bump o c) = total c + 1).
Proof.
  intros Hu. split.
  - destruct (loop_counts twilio_from users (Logic.Counters 0 0 0) w1)
      as (c & w' & Hloop & He & Hns & Hn & Hs).
    exists (Logic.notified c), (Logic.skipped c), (Logic.errors c), w'.
    split; [by eapply run_job_of_loop|].
    pose proof (count_total (turns twilio_from users (Logic.Counters 0 0 0, w1)))
      as Htot.
    rewrite length_turns in Htot.
    cbn [Logic.errors Logic.notified Logic.skipped] in He, Hns, Hn, Hs.
    unfold count in *. lia.
  - intros u c w0.
    destruct (for_user_outcome twilio_from u c w0) as (o & w0' & Hbody & _).
    exists o, w0'. split; [done|apply total_bump].
Qed.

(** C9.  When [main] returns, the exit code is 0 exactly when [run_job]
    counted no error and 1 otherwise; it is computed from [errors] alone. *)
Theorem C9_exit_code (startup : Eff.M W string) (stop_health_server : W → W)
    (w w' : W) (code : Z) :
  Main.main startup stop_health_server w = (inr code, w') →
  ∃ from w1 notified skipped errors w2,
    startup w = (inr from, w1)
    ∧ Logic.run_job from w1 = (inr (notified, skipped, errors), w2)
    ∧ code = (if errors =? 0 then 0 else 1)
    ∧ (code = 0 ↔ errors = 0)
    ∧ (0 < errors → code ≠ 0).
Proof.
  unfold Main.main, mbind, M_bind, Eff.bind.
  destruct (startup w) as [[e|from] w1]; [done|].
  destruct (Logic.run_job from w1) as [[e|[[n s] e]] w2] eqn:Hrun; [done|].
  unfold log, Eff.modify, Eff.ret. intros Heq.
  injection Heq as Hcode Hw. subst code w'.
  exists from, w1, n, s, e, w2.
  split; [done|]. split; [done|]. split; [done|].
  destruct (Z.eqb_spec e 0) as [->|Hne]; split; try done; lia.
Qed.

End Job.

(** ** Runs of the job on the five users *)

(** The three first users are the end-to-end scenario of the
    specification: no log in the window, a log two days ago only, a log
    yesterday only. *)
Example end_to_end_three_users :
  let users := [Sim.user 1 "UTC"; Sim.user 2 "UTC"; Sim.user 3 "UTC"] in
  let tables := Schema.Tables users (Sim.habits_of users)
                              (Schema.Log Sim.five_users) in
  (Logic.run_job "+15550199" (Sim.ready Sim.noon_2024_03_11 tables [] [])).1
  = inr (2, 1, 0).
Proof. by vm_compute. Qed.

(** The query for the logs of the third of five users raises: the four
    others are counted, three notified and one skipped, and [errors] is 1.
    A refused message for the first user is counted in the same way. *)
Example five_users_one_failure :
  (Logic.run_job "+15550199"
     (Sim.ready Sim.noon_2024_03_11 Sim.five_users [false; false; false; true] [])).1
  = inr (3, 1, 1)
  ∧ (Logic.run_job "+15550199"
       (Sim.ready Sim.noon_2024_03_11 Sim.five_users [] [true])).1
    = inr (2, 2, 1).
Proof. split; by vm_compute. Qed.


(** The five users, without any failure. *)
Lemma C10_counters_add_up_witness :
  let w := Sim.ready Sim.noon_2024_03_11 Sim.five_users [] [] in
  ∃ notified skipped errors w',
    Logic.run_job "+15550199" w = (inr (notified, skipped, errors), w')
    ∧ 0 ≤ notified ∧ 0 ≤ skipped ∧ 0 ≤ errors
    ∧ notified + skipped + errors
      = Z.of_nat (length (Db.select_users_with_phones Sim.five_users)).
Proof.
  cbv zeta.
  apply (C10_counters_add_up "+15550199"
           (Db.select_users_with_phones Sim.five_users)
           (Sim.ready Sim.noon_2024_03_11 Sim.five_users [] [])
           (Sim.ready Sim.noon_2024_03_11 Sim.five_users [] [])).
  reflexivity.
Defined.

(** A run in which one user fails ends with the exit code 1. *)
Lemma C9_exit_code_witness :
  let w := Sim.ready Sim.noon_2024_03_11 Sim.five_users
                     [false; false; false; true] [] in
  ∃ from w1 notified skipped errors w2,
    Eff.ret "+15550199" w = (inr from, w1)
    ∧ Logic.run_job from w1 = (inr (notified, skipped, errors), w2)
    ∧ 1 = (if errors =? 0 then 0 else 1)
    ∧ (1 = 0 ↔ errors = 0)
    ∧ (0 < errors → 1 ≠ 0).
Proof.
  cbv zeta.
  apply (C9_exit_code (Eff.ret "+15550199") id
           (Sim.ready Sim.noon_2024_03_11 Sim.five_users
                      [false; false; false; true] [])
           (Main.main (Eff.ret "+15550199") id
              (Sim.ready Sim.noon_2024_03_11 Sim.five_users
                         [false; false; false; true] [])).2
           1).
  by vm_compute.
Defined.

(** * Further properties of [src/app] *)

(** ** The population and the classifier *)

(** [fetch_users_with_phones] returns a user exactly when the row has a
    phone number that is neither NULL nor empty; in particular no returned
    phone number is empty, and the rows keep the order of the table. *)
Theorem users_with_phones_are_the_rows_with_a_phone
    (db : Schema.tables) (user_id : Z) (tz_name : option string) (phone : string) :
  ((user_id, tz_name, phone) ∈ Db.select_users_with_phones db
   ↔ ∃ u, u ∈ Schema.User db
          ∧ Schema.u_id u = user_id
          ∧ Schema.u_time_zone u = tz_name
          ∧ Schema.u_phone_number u = Some phone
          ∧ phone ≠ "")
  ∧ (length (Db.select_users_with_phones db) ≤ length (Schema.User db))%nat
  ∧ Db.select_users_with_phones db
    = omap (fun u => match Schema.u_phone_number u with
                     | Some p => if String.eqb p "" then None
                                 else Some (Schema.u_id u, Schema.u_time_zone u, p)
                     | None => None
                     end) (Schema.User db).
Proof.
  assert (Db.select_users_with_phones db
          = omap (fun u => match Schema.u_phone_number u with
                           | Some p => if String.eqb p "" then None
                                       else Some (Schema.u_id u, Schema.u_time_zone u, p)
                           | None => None
                           end) (Schema.User db)) as Heq.
  { unfold Db.select_users_with_phones.
    induction (Schema.User db) as [|u us IH]; [done|].
    rewrite filter_cons. cbn [omap list_omap].
    unfold Schema.has_phone, Py.truthy in *.
    destruct (Schema.u_phone_number u) as [p|] eqn:Hp.
    - destruct (String.eqb p "") eqn:Hempty; cbn [negb].
      + rewrite decide_False by (by intros []). exact IH.
      + rewrite decide_True by done. cbn. rewrite Hp. cbn. by rewrite IH.
    - rewrite decide_False by (by intros []). exact IH. }
  split; [|split; [|exact Heq]].
  - rewrite Heq, list_elem_of_omap. split.
    + intros (u & Hu & Hsome). exists u. split; [done|].
      destruct (Schema.u_phone_number u) as [p|]; [|done].
      destruct (String.eqb_spec p ""); [done|].
      injection Hsome as <- <- <-. done.
    + intros (u & Hu & <- & <- & Hp & Hne). exists u. split; [done|].
      rewrite Hp. by destruct (String.eqb_spec phone "").
  - rewrite Heq. clear Heq. induction (Schema.User db) as [|u us IH]; [done|].
    simpl.
    destruct (match Schema.u_phone_number u with
              | Some p => if String.eqb p "" then None
                          else Some (Schema.u_id u, Schema.u_time_zone u, p)
              | None => None
              end); simpl.
    + apply le_n_S. exact IH.
    + etrans; [exact IH|]. lia.
Qed.

(** The loop of [_classify_days] computes the set of the local dates of
    the logs: the order of the logs and their repetition do not matter, and
    classifying two lists together gives the union of their sets. *)
Theorem classify_is_the_set_of_local_dates
    (z : Tz.zone) (created_list more : list Py.datetime) :
  Logic.classify z created_list = list_to_set (Logic.local_date z <$> created_list)
  ∧ Logic.classify z (created_list ++ more)
    = Logic.classify z created_list ∪ Logic.classify z more
  ∧ Logic.classify z (reverse created_list) = Logic.classify z created_list
  ∧ Logic.classify z (created_list ++ created_list) = Logic.classify z created_list
  ∧ (Logic.classify z created_list = ∅ ↔ created_list = []).
Proof.
  assert (∀ l, Logic.classify z l = list_to_set (Logic.local_date z <$> l)) as H.
  { intros l. apply set_eq. intros d.
    rewrite elem_of_classify, elem_of_list_to_set, list_elem_of_fmap.
    split; intros (dt & ? & ?); exists dt; done. }
  split; [apply H|]. rewrite !H.
  split; [by rewrite fmap_app, list_to_set_app_L|].
  split.
  { apply set_eq. intros d.
    by rewrite fmap_reverse, !elem_of_list_to_set, elem_of_reverse. }
  split.
  { apply set_eq. intros d.
    rewrite fmap_app, list_to_set_app_L, elem_of_union. tauto. }
  split.
  - intros Hempty. destruct created_list as [|dt rest]; [done|].
    exfalso. apply (not_elem_of_empty (C := gset Z) (Logic.local_date z dt)).
    rewrite <- Hempty. apply elem_of_list_to_set, list_elem_of_fmap_2.
    apply elem_of_cons. by left.
  - by intros ->.
Qed.

(** ** The window on days without a change of offset *)

(** The offset of the zone is [c] at the three local midnights of the
    window and at every instant from its start to its end. *)
Definition quiet_window (zone : Tz.zone) (now c : Z) : Prop :=
  let local_yesterday := (Logic.window zone now).2 in
  Tz.utcoffset zone (Tz.combine_min (local_yesterday - 1)) = c
  ∧ Tz.utcoffset zone (Tz.combine_min local_yesterday) = c
  ∧ Tz.utcoffset zone (Tz.combine_min (local_yesterday + 1)) = c
  ∧ ∀ t, (Logic.window zone now).1.1.1 ≤ t < (Logic.window zone now).1.2 →
         Tz.fromutc_offset zone t = c.

Lemma date_of_range wall d :
  Tz.SECONDS_PER_DAY * d ≤ wall < Tz.SECONDS_PER_DAY * (d + 1) → Tz.date wall = d.
Proof.
  unfold Tz.date, Tz.SECONDS_PER_DAY. intros H. symmetry.
  apply (Z.div_unique_pos wall 86400 d (wall - 86400 * d)); lia.
Qed.

Lemma date_bounds wall :
  Tz.SECONDS_PER_DAY * Tz.date wall ≤ wall
  < Tz.SECONDS_PER_DAY * Tz.date wall + Tz.SECONDS_PER_DAY.
Proof.
  unfold Tz.date, Tz.SECONDS_PER_DAY.
  pose proof (Z.mul_div_le wall 86400). pose proof (Z.mul_succ_div_gt wall 86400).
  lia.
Qed.

Lemma quiet_window_bounds zone now c :
  quiet_window zone now c →
  let local_yesterday := (Logic.window zone now).2 in
  (Logic.window zone now).1.1.1 = Tz.SECONDS_PER_DAY * (local_yesterday - 1) - c
  ∧ (Logic.window zone now).1.1.2 = Tz.SECONDS_PER_DAY * local_yesterday - c
  ∧ (Logic.window zone now).1.2 = Tz.SECONDS_PER_DAY * (local_yesterday + 1) - c.
Proof.
  unfold quiet_window. rewrite window_unfold. cbv zeta. cbn [fst snd].
  set (today := Tz.date (Tz.astimezone zone now)).
  replace (today - 1 - 1) with (today - 2) by lia.
  replace (today - 1 + 1) with today by lia.
  intros (H1 & H2 & H3 & _). unfold Tz.to_utc.
  rewrite H1, H2, H3. unfold Tz.combine_min. done.
Qed.

Lemma quiet_local_date (zone : Tz.zone) (now c t : Z) :
  quiet_window zone now c →
  (Logic.window zone now).1.1.1 ≤ t < (Logic.window zone now).1.2 →
  Logic.local_date zone (Py.Naive t)
  = if t <? (Logic.window zone now).1.1.2
    then (Logic.window zone now).2 - 1
    else (Logic.window zone now).2.
Proof.
  intros Hquiet Ht.
  pose proof (quiet_window_bounds zone now c Hquiet) as (E1 & E2 & E3).
  destruct Hquiet as (_ & _ & _ & Hoff).
  unfold Logic.local_date, Tz.astimezone. rewrite (Hoff t Ht).
  rewrite E1, E3 in Ht. rewrite E2.
  unfold Tz.SECONDS_PER_DAY in *.
  destruct (Z.ltb_spec t (86400 * (Logic.window zone now).2 - c));
    apply date_of_range; unfold Tz.SECONDS_PER_DAY; lia.
Qed.

(** A window over which the offset of the zone does not change is cut by
    its second instant, the start of yesterday, exactly as the classifier
    cuts it: a log of the window before that instant falls on the day
    before yesterday, a log from that instant on falls on yesterday, and
    the three instants are 24 hours apart. *)
Theorem quiet_window_local_dates (zone : Tz.zone) (now c t : Z) :
  quiet_window zone now c →
  (Logic.window zone now).1.1.1 ≤ t < (Logic.window zone now).1.2 →
  (t < (Logic.window zone now).1.1.2 →
   Logic.local_date zone (Py.Naive t) = (Logic.window zone now).2 - 1)
  ∧ ((Logic.window zone now).1.1.2 ≤ t →
     Logic.local_date zone (Py.Naive t) = (Logic.window zone now).2)
  ∧ (Logic.window zone now).1.1.2 - (Logic.window zone now).1.1.1
    = Tz.SECONDS_PER_DAY
  ∧ (Logic.window zone now).1.2 - (Logic.window zone now).1.1.2
    = Tz.SECONDS_PER_DAY.
Proof.
  intros Hquiet Ht.
  pose proof (quiet_local_date zone now c t Hquiet Ht) as Hdate.
  pose proof (quiet_window_bounds zone now c Hquiet) as (E1 & E2 & E3).
  split; [|split].
  - intros Hlt. rewrite Hdate.
    by destruct (Z.ltb_spec t (Logic.window zone now).1.1.2); [|lia].
  - intros Hle. rewrite Hdate.
    by destruct (Z.ltb_spec t (Logic.window zone now).1.1.2); [lia|].
  - rewrite E1, E2, E3. unfold Tz.SECONDS_PER_DAY. lia.
Qed.

(** Every zone without transitions (UTC among them, the zone that stands
    in for an identifier that does not resolve) has only quiet windows. *)
Lemma fixed_offset_quiet c now : quiet_window (Tz.Zone c []) now c.
Proof. unfold quiet_window. repeat split. Qed.

(** A log of user 2 of the five users, 2024-03-09T10:00:00Z, seen at noon
    of 2024-03-11 in UTC: it falls on the day before yesterday. *)
Lemma quiet_window_local_dates_witness :
  Logic.local_date Tz.UTC (Py.Naive 1709978400)
  = (Logic.window Tz.UTC Sim.noon_2024_03_11).2 - 1.
Proof.
  apply (quiet_window_local_dates Tz.UTC Sim.noon_2024_03_11 0 1709978400).
  - apply fixed_offset_quiet.
  - by vm_compute.
  - by vm_compute.
Defined.

(** On a quiet window the verdict can be read off the fetched logs and the
    start of yesterday: SKIP when a log is at or after it,
    NOTIFY(missed_yesterday) when all logs are before it and there is one,
    NOTIFY(no_logs_two_days) when nothing was fetched. *)
Theorem quiet_window_verdict
    (zone : Tz.zone) (now c : Z) (db : Schema.tables) (user_id : Z) :
  quiet_window zone now c →
  let yesterday_start := (Logic.window zone now).1.1.2 in
  let logs := Db.select_user_logs_between db user_id
                (Logic.window zone now).1.1.1 (Logic.window zone now).1.2 in
  Logic.verdict_of
    (Logic.evaluate (Logic.classify zone (Py.Naive <$> logs))
                    (Logic.window zone now).2)
  = Some (if existsb (fun t => yesterday_start <=? t) logs then SKIP
          else if existsb (fun t => t <? yesterday_start) logs
               then NOTIFY missed_yesterday
               else NOTIFY no_logs_two_days).
Proof.
  intros Hquiet yesterday_start logs.
  set (ly := (Logic.window zone now).2).
  assert (∀ d, d ∈ Logic.classify zone (Py.Naive <$> logs)
               ↔ ∃ t, t ∈ logs
                      ∧ d = if t <? yesterday_start then ly - 1 else ly) as Hin.
  { intros d. rewrite elem_of_classify. split.
    - intros (dt & Hdt & <-). apply list_elem_of_fmap in Hdt as (t & -> & Ht).
      exists t. split; [done|]. apply (quiet_local_date _ _ c); [done|].
      apply elem_of_select_user_logs_between in Ht. lia.
    - intros (t & Ht & ->). exists (Py.Naive t).
      split; [by apply list_elem_of_fmap_2|].
      apply (quiet_local_date _ _ c); [done|].
      apply elem_of_select_user_logs_between in Ht. lia. }
  unfold Logic.evaluate. rewrite logic_decide_notify_table. f_equal.
  destruct (existsb (λ t, yesterday_start <=? t) logs) eqn:Hy.
  - apply existsb_exists in Hy as (t & Ht%list_elem_of_In & Hle).
    rewrite (bool_decide_eq_true_2 (ly ∈ _)).
    + by destruct (bool_decide _).
    + apply Hin. exists t. split; [done|].
      destruct (Z.ltb_spec t yesterday_start); [lia|done].
  - rewrite (bool_decide_eq_false_2 (ly ∈ _)).
    2:{ intros (t & Ht & Hd)%Hin.
        assert (existsb (λ t, yesterday_start <=? t) logs = true) as Habs;
          [|congruence].
        apply existsb_exists. exists t. split; [by apply list_elem_of_In|].
        destruct (Z.ltb_spec t yesterday_start); lia. }
    destruct (existsb (λ t, t <? yesterday_start) logs) eqn:Hd.
    + apply existsb_exists in Hd as (t & Ht%list_elem_of_In & Hlt).
      rewrite bool_decide_eq_true_2; [done|].
      apply Hin. exists t. split; [done|]. by rewrite Hlt.
    + rewrite bool_decide_eq_false_2; [done|].
      intros (t & Ht & Hd')%Hin.
      assert (existsb (λ t, t <? yesterday_start) logs = true) as Habs;
        [|congruence].
      apply existsb_exists. exists t. split; [by apply list_elem_of_In|].
      destruct (Z.ltb_spec t yesterday_start); [done|lia].
Qed.

(** The five users at noon of 2024-03-11 in UTC: user 4 has a log at the
    last second of yesterday and is skipped. *)
Lemma quiet_window_verdict_witness :
  Logic.verdict_of
    (Logic.evaluate
       (Logic.classify Tz.UTC
          (Py.Naive <$> Db.select_user_logs_between Sim.five_users 4
                          (Logic.window Tz.UTC Sim.noon_2024_03_11).1.1.1
                          (Logic.window Tz.UTC Sim.noon_2024_03_11).1.2))
       (Logic.window Tz.UTC Sim.noon_2024_03_11).2)
  = Some SKIP.
Proof.
  exact (quiet_window_verdict Tz.UTC Sim.noon_2024_03_11 0 Sim.five_users 4
           (fixed_offset_quiet 0 Sim.noon_2024_03_11)).
Defined.

(** When the offset at the current instant is the offset at the local
    midnight of today, the third instant of the window is not after the
    current instant and less than a day before it: the window ends where
    the running day begins. *)
Theorem window_ends_at_start_of_running_day (zone : Tz.zone) (now : Z) :
  Tz.fromutc_offset zone now
  = Tz.utcoffset zone (Tz.combine_min (Tz.date (Tz.astimezone zone now))) →
  (Logic.window zone now).1.2 ≤ now
  ∧ now < (Logic.window zone now).1.2 + Tz.SECONDS_PER_DAY.
Proof.
  intros Hoff. rewrite window_unfold. cbn [fst snd].
  unfold Tz.to_utc. rewrite <- Hoff. unfold Tz.combine_min.
  pose proof (date_bounds (Tz.astimezone zone now)) as H.
  unfold Tz.astimezone in *. lia.
Qed.

(** New York in the afternoon of 2024-03-11. *)
Lemma window_ends_at_start_of_running_day_witness :
  (Logic.window Tz.America_New_York 1710172800).1.2 ≤ 1710172800
  ∧ 1710172800 < (Logic.window Tz.America_New_York 1710172800).1.2
                 + Tz.SECONDS_PER_DAY.
Proof.
  apply (window_ends_at_start_of_running_day Tz.America_New_York 1710172800).
  reflexivity.
Defined.

(** ** One turn of the loop, and the runs that end early *)

Section Turn.
Context {W : Type} {R : Runtime W}.

(** Lines 53 to 66 of [run_job]: the calls that lead to the verdict. *)
Definition verdict_for (user_id : Z) (tz_name : option string)
  : Eff.M W (bool * string) :=
  '(s1, s2, s3, local_yesterday) ← Logic._compute_window tz_name;
  logs ← Db.fetch_user_logs_between user_id s1 s3;
  days ← Logic._classify_days tz_name logs;
  Eff.ret (Logic.evaluate days local_yesterday).

Definition user_error (user_id : Z) (e : Eff.exn) : Py.log_record :=
  Py.LogRecord Py.ERROR "user_error"
    [("user_id", Py.VInt user_id);
     ("error", Py.VStr (match e with Eff.Exception s => s end))].

(** [send_sms] returns exactly when the client is initialised and Twilio
    accepts the message.  Without a client it raises at once and leaves the
    world as it is: Twilio is not called and nothing is logged.  When
    Twilio raises, [send_sms] raises the same exception, after one
    [sms_error] record. *)
Theorem send_sms_outcomes (from_number to_number body : string) (w : W) :
  (Eff.returned (Notifier.send_sms from_number to_number body w).1 = true
   ↔ twilio_client_ready w = true
     ∧ Eff.returned (twilio_create from_number to_number body w).1 = true)
  ∧ (twilio_client_ready w = false →
     Notifier.send_sms from_number to_number body w
     = (inl (Eff.Exception "Twilio client not initialized"), w))
  ∧ (∀ e w1, twilio_client_ready w = true →
       twilio_create from_number to_number body w = (inl e, w1) →
       Notifier.send_sms from_number to_number body w
       = (inl e,
          logging_handle
            (Py.LogRecord Py.ERROR "sms_error"
               [("to", Py.VStr to_number);
                ("error", Py.VStr (match e with Eff.Exception s => s end))]) w1))
  ∧ (∀ w1, twilio_client_ready w = true →
       twilio_create from_number to_number body w = (inr tt, w1) →
       Notifier.send_sms from_number to_number body w
       = (inr tt,
          logging_handle
            (Py.LogRecord Py.INFO "sms_sent" [("to", Py.VStr to_number)]) w1)).
Proof.
  assert (Notifier.send_sms from_number to_number body w
          = if twilio_client_ready w then
              match twilio_create from_number to_number body w with
              | (inl e, w1) =>
                  (inl e,
                   logging_handle
                     (Py.LogRecord Py.ERROR "sms_error"
                        [("to", Py.VStr to_number);
                         ("error", Py.VStr (match e with Eff.Exception s => s end))])
                     w1)
              | (inr _, w1) =>
                  (inr tt,
                   logging_handle
                     (Py.LogRecord Py.INFO "sms_sent" [("to", Py.VStr to_number)]) w1)
              end
            else (inl (Eff.Exception "Twilio client not initialized"), w)) as Heq.
  { unfold Notifier.send_sms, Eff.try_except, mbind, M_bind, Eff.bind, log,
      Eff.modify, Eff.raise.
    destruct (twilio_client_ready w); [|done].
    by destruct (twilio_create from_number to_number body w) as [[e|[]] w1]. }
  rewrite Heq. clear Heq.
  destruct (twilio_client_ready w).
  - destruct (twilio_create from_number to_number body w) as [[e|[]] w1];
      cbn [fst Eff.returned].
    + split; [split; [done|by intros [_ ?]]|]. split; [done|].
      split; [by intros e' w' _ [= <- <-]|by intros w' _ [=]].
    + split; [done|]. split; [done|].
      split; [by intros e' w' _ [=]|by intros w' _ [= <-]].
  - cbn [fst Eff.returned]. split; [split; [done|by intros [? _]]|].
    split; [done|]. split; by intros.
Qed.

Lemma for_user_cases (twilio_from : string) (user_id : Z)
    (tz_name : option string) (phone : string) (c : Logic.counters) (w : W) :
  Logic.for_user twilio_from (user_id, tz_name, phone) (c, w)
  = match verdict_for user_id tz_name w with
    | (inl e, w1) =>
        (inr tt, (bump Errored c, logging_handle (user_error user_id e) w1))
    | (inr (false, _), w1) => (inr tt, (bump Skipped c, w1))
    | (inr (true, why), w1) =>
        match Notifier.send_sms twilio_from phone Logic.body_text w1 with
        | (inl e, w2) =>
            (inr tt, (bump Errored c, logging_handle (user_error user_id e) w2))
        | (inr _, w2) =>
            (inr tt,
             (bump Notified c,
              logging_handle
                (Py.LogRecord Py.INFO "notified"
                   [("user_id", Py.VInt user_id); ("reason", Py.VStr why)]) w2))
        end
    end.
Proof.
  unfold Logic.for_user, Eff.try_except, Logic.try_user, verdict_for,
    mbind, M_bind, Eff.bind.
  rewrite lift_run.
  destruct (Logic._compute_window tz_name w) as [[e|[[[s1 s2] s3] ly]] w1];
    cbn [fst snd].
  { unfold Logic.incr_errors, Eff.modify. cbn [fst snd]. by rewrite lift_run. }
  rewrite lift_run.
  destruct (Db.fetch_user_logs_between user_id s1 s3 w1) as [[e|logs] w2];
    cbn [fst snd].
  { unfold Logic.incr_errors, Eff.modify. cbn [fst snd]. by rewrite lift_run. }
  rewrite lift_run.
  destruct (Logic._classify_days tz_name logs w2) as [[e|days] w3]; cbn [fst snd].
  { unfold Logic.incr_errors, Eff.modify. cbn [fst snd]. by rewrite lift_run. }
  unfold Eff.ret.
  destruct (Logic.evaluate days ly) as [[|] why].
  - rewrite lift_run.
    destruct (Notifier.send_sms twilio_from phone Logic.body_text w3)
      as [[e|[]] w4]; cbn [fst snd].
    + unfold Logic.incr_errors, Eff.modify. cbn [fst snd]. by rewrite lift_run.
    + unfold Logic.incr_notified, Eff.modify. cbn [fst snd]. by rewrite lift_run.
  - reflexivity.
Qed.

(** A turn of the loop always returns, in one of three ways.  When the
    calls that lead to the verdict raise, or [send_sms] raises, the user is
    counted in [errors] and the last thing done is a [user_error] record
    with the user's identifier and the text of the exception.  When the
    verdict is to skip, the user is counted in [skipped] and nothing else
    happens: no message, no record.  The user is counted in [notified]
    exactly when the verdict is to notify and [send_sms] returned. *)
Theorem turn_outcomes (twilio_from : string) (user_id : Z)
    (tz_name : option string) (phone : string) (c : Logic.counters) (w : W) :
  let verdict := verdict_for user_id tz_name w in
  ∃ o w',
    Logic.for_user twilio_from (user_id, tz_name, phone) (c, w)
    = (inr tt, (bump o c, w'))
    ∧ (o = Skipped ↔ ∃ why, verdict.1 = inr (false, why))
    ∧ (o = Skipped → w' = verdict.2)
    ∧ (o = Notified
       ↔ ∃ why, verdict.1 = inr (true, why)
                ∧ Eff.returned
                    (Notifier.send_sms twilio_from phone Logic.body_text
                                       verdict.2).1 = true)
    ∧ (o = Errored → ∃ e w1, w' = logging_handle (user_error user_id e) w1).
Proof.
  cbv zeta.
  pose proof (for_user_cases twilio_from user_id tz_name phone c w) as H.
  destruct (verdict_for user_id tz_name w) as [[e|[[|] why]] w1]; cbn [fst snd].
  - exists Errored, (logging_handle (user_error user_id e) w1).
    split; [done|]. split; [split; [done|by intros [? ?]]|]. split; [done|].
    split; [split; [done|by intros (? & ? & _)]|]. intros _. by eexists _, _.
  - destruct (Notifier.send_sms twilio_from phone Logic.body_text w1)
      as [[e|[]] w2]; cbn [fst Eff.returned].
    + exists Errored, (logging_handle (user_error user_id e) w2).
      split; [done|]. split; [split; [done|by intros [? [=]]]|]. split; [done|].
      split; [split; [done|by intros (? & _ & ?)]|]. intros _. by eexists _, _.
    + eexists Notified, _. split; [exact H|].
      split; [split; [done|by intros [? [=]]]|]. split; [done|].
      split; [split; [intros _; by exists why|done]|]. done.
  - exists Skipped, w1. split; [done|].
    split; [split; [intros _; by exists why|done]|]. split; [done|].
    split; [split; [done|by intros (? & [=] & _)]|]. done.
Qed.

(** When the query for the users raises, [run_job] raises the same
    exception and does nothing else: this failure is outside the [try] of
    the loop.  When the query returns no user, [run_job] returns three
    zeros and does nothing else. *)
Theorem run_job_without_users (twilio_from : string) (w : W) :
  match Db.fetch_users_with_phones w with
  | (inl e, w1) => Logic.run_job twilio_from w = (inl e, w1)
  | (inr [], w1) => Logic.run_job twilio_from w = (inr (0, 0, 0), w1)
  | (inr (_ :: _), _) => True
  end
  ∧ (db_pool_ready w = false →
     Logic.run_job twilio_from w
     = (inl (Eff.Exception "DB pool not initialized"), w)).
Proof.
  split.
  - unfold Logic.run_job, mbind, M_bind, Eff.bind.
    destruct (Db.fetch_users_with_phones w) as [[e|[|u us]] w1]; done.
  - intros Hpool.
    unfold Logic.run_job, Db.fetch_users_with_phones, Db._get_conn,
      mbind, M_bind, Eff.bind.
    by rewrite Hpool.
Qed.

(** [main] has no handler of its own: when the set-up raises, [main]
    raises the same exception in the state the set-up left, and neither
    [run_job] nor [stop_health_server] runs; when [run_job] raises, [main]
    raises the same exception and [stop_health_server] does not run. *)
Theorem main_propagates (startup : Eff.M W string) (stop_health_server : W → W)
    (w : W) :
  match startup w with
  | (inl e, w1) => Main.main startup stop_health_server w = (inl e, w1)
  | (inr twilio_from, w1) =>
      match Logic.run_job twilio_from w1 with
      | (inl e, w2) => Main.main startup stop_health_server w = (inl e, w2)
      | (inr (notified, skipped, errors), w2) =>
          Main.main startup stop_health_server w
          = (inr (if errors =? 0 then 0 else 1),
             stop_health_server
               (logging_handle
                  (Py.LogRecord Py.INFO "run_complete"
                     [("notified", Py.VInt notified); ("skipped", Py.VInt skipped);
                      ("errors", Py.VInt errors)]) w2))
      end
  end.
Proof.
  unfold Main.main, mbind, M_bind, Eff.bind.
  destruct (startup w) as [[e|twilio_from] w1]; [done|].
  by destruct (Logic.run_job twilio_from w1) as [[e|[[n s] e]] w2].
Qed.

End Turn.

(** ** [src/app/config.py] *)
Module Config.

Record t : Type := Make {
  log_level : string;
  mysql_host : string;
  mysql_port : Z;
  mysql_db : string;
  mysql_user : string;
  mysql_password : string;
  mysql_ssl_disabled : bool;
  mysql_ssl_ca_path : string;
  twilio_account_sid : string;
  twilio_auth_token : string;
  twilio_from : string
}.

(** [not s] for a string. *)
Definition is_empty (s : string) : bool := String.eqb s "".

(** [validate], lines 18 to 34: the names are appended one test after the
    other. *)
Definition missing (c : t) : list string :=
  let missing := [] in
  let missing := if is_empty (mysql_host c) then missing ++ ["MYSQL_HOST"] else missing in
  let missing := if is_empty (mysql_db c) then missing ++ ["MYSQL_DB"] else missing in
  let missing := if is_empty (mysql_user c) then missing ++ ["MYSQL_USER"] else missing in
  let missing :=
    if is_empty (mysql_password c) then missing ++ ["MYSQL_PASSWORD"] else missing in
  let missing :=
    if is_empty (twilio_account_sid c) then missing ++ ["TWILIO_ACCOUNT_SID"]
    else missing in
  let missing :=
    if is_empty (twilio_auth_token c) then missing ++ ["TWILIO_AUTH_TOKEN"]
    else missing in
  let missing :=
    if is_empty (twilio_from c) then missing ++ ["TWILIO_FROM"] else missing in
  missing.

Definition validate (c : t) : Eff.exn + unit :=
  match missing c with
  | [] => inr tt
  | names =>
      inl (Eff.Exception
             ("Missing required configuration: " ++ String.concat ", " names))
  end.

(** The settings that [validate] looks at, with their environment names. *)
Definition required (c : t) : list (string * string) :=
  [ ("MYSQL_HOST", mysql_host c); ("MYSQL_DB", mysql_db c);
    ("MYSQL_USER", mysql_user c); ("MYSQL_PASSWORD", mysql_password c);
    ("TWILIO_ACCOUNT_SID", twilio_account_sid c);
    ("TWILIO_AUTH_TOKEN", twilio_auth_token c); ("TWILIO_FROM", twilio_from c) ].

Section Environment.

(** [os.environ], Python's [int] on a string ([None] when it raises
    [ValueError]), the text of that [ValueError], and [str.lower]. *)
Variable environ : string → option string.
Variable int : string → option Z.
Variable int_error : string → string.
Variable lower : string → string.

(** [os.getenv(key, default)] *)
Definition getenv (key default : string) : string :=
  match environ key with
  | Some v => v
  | None => default
  end.

(** [Config()], lines 5 to 15. *)
Definition init : Eff.exn + t :=
  match int (getenv "MYSQL_PORT" "3306") with
  | None => inl (Eff.Exception (int_error (getenv "MYSQL_PORT" "3306")))
  | Some port =>
      inr {| log_level := getenv "LOG_LEVEL" "INFO";
             mysql_host := getenv "MYSQL_HOST" "";
             mysql_port := port;
             mysql_db := getenv "MYSQL_DB" "";
             mysql_user := getenv "MYSQL_USER" "";
             mysql_password := getenv "MYSQL_PASSWORD" "";
             mysql_ssl_disabled :=
               String.eqb (lower (getenv "MYSQL_SSL_DISABLED" "false")) "true";
             mysql_ssl_ca_path := getenv "MYSQL_SSL_CA_PATH" "";
             twilio_account_sid := getenv "TWILIO_ACCOUNT_SID" "";
             twilio_auth_token := getenv "TWILIO_AUTH_TOKEN" "";
             twilio_from := getenv "TWILIO_FROM" "" |}
  end.

(** Lines 15 and 16 of [main]: [cfg = Config()], then [cfg.validate()]. *)
Definition load : Eff.exn + t :=
  match init with
  | inl e => inl e
  | inr cfg =>
      match validate cfg with
      | inl e => inl e
      | inr _ => inr cfg
      end
  end.

End Environment.

Definition required_keys : list string :=
  [ "MYSQL_HOST"; "MYSQL_DB"; "MYSQL_USER"; "MYSQL_PASSWORD";
    "TWILIO_ACCOUNT_SID"; "TWILIO_AUTH_TOKEN"; "TWILIO_FROM" ].

End Config.

Lemma missing_is_filter (c : Config.t) :
  Config.missing c
  = (filter (fun kv => Is_true (Config.is_empty kv.2)) (Config.required c)).*1.
Proof.
  assert (∀ (b : bool) (acc : list string) name,
            (if b then acc ++ [name] else acc)
            = acc ++ (if b then [name] else [])) as Happ.
  { intros [] acc name; [done|by rewrite app_nil_r]. }
  assert (∀ name v rest,
            (filter (λ kv : string * string, Is_true (Config.is_empty kv.2))
                    ((name, v) :: rest)).*1
            = (if Config.is_empty v then [name] else [])
              ++ (filter (λ kv : string * string,
                            Is_true (Config.is_empty kv.2)) rest).*1) as Hcons.
  { intros name v rest. rewrite filter_cons. cbn [snd].
    destruct (Config.is_empty v); [by rewrite decide_True|].
    by rewrite decide_False by (by intros []). }
  unfold Config.missing, Config.required. cbv zeta.
  rewrite !Hcons, filter_nil, !Happ. cbn [fmap list_fmap].
  rewrite app_nil_l, app_nil_r, <- !app_assoc. reflexivity.
Qed.

Lemma validate_ok_iff (c : Config.t) :
  Config.validate c = inr tt ↔ ∀ kv, kv ∈ Config.required c → kv.2 ≠ "".
Proof.
  unfold Config.validate. rewrite missing_is_filter. split.
  - intros Hok kv Hin Hempty.
    destruct (filter _ _) as [|kv' rest] eqn:Hf; [|done].
    assert (kv ∈ filter (λ kv, Is_true (Config.is_empty kv.2))
                        (Config.required c)) as Hkv.
    { apply list_elem_of_filter. split; [|done].
      unfold Config.is_empty. rewrite Hempty. done. }
    rewrite Hf in Hkv. by apply not_elem_of_nil in Hkv.
  - intros Hall.
    destruct (filter _ _) as [|kv rest] eqn:Hf; [done|].
    assert (kv ∈ filter (λ kv, Is_true (Config.is_empty kv.2))
                        (Config.required c)) as Hkv.
    { rewrite Hf. apply elem_of_cons. by left. }
    apply list_elem_of_filter in Hkv as [Hempty Hin].
    exfalso. apply (Hall kv Hin).
    unfold Config.is_empty in Hempty. apply Is_true_true in Hempty.
    by apply String.eqb_eq.
Qed.

(** [validate] reports exactly the required settings that are empty, in
    the order in which they are declared, and raises exactly when there is
    one; the log level, the port and the two SSL settings play no part. *)
Theorem validate_reports_the_empty_settings (c : Config.t) :
  Config.missing c
  = (filter (fun kv => Is_true (Config.is_empty kv.2)) (Config.required c)).*1
  ∧ (Config.validate c = inr tt
     ↔ ∀ kv, kv ∈ Config.required c → kv.2 ≠ "")
  ∧ (∀ msg, Config.validate c = inl (Eff.Exception msg) →
       msg = ("Missing required configuration: "
              ++ String.concat ", " (Config.missing c))%string
       ∧ Config.missing c ≠ []).
Proof.
  split; [apply missing_is_filter|]. split; [apply validate_ok_iff|].
  intros msg. unfold Config.validate.
  destruct (Config.missing c) as [|name rest]; [done|].
  intros [= <-]. done.
Qed.

(** [Config()] followed by [validate()] returns exactly when the port is a
    number and each of the seven required variables is set to a string
    that is not empty; an unset variable counts as empty. *)
Theorem config_loads_iff_required_variables_set
    (environ : string → option string) (int : string → option Z)
    (int_error : string → string) (lower : string → string) :
  (∃ cfg, Config.load environ int int_error lower = inr cfg)
  ↔ is_Some (int (Config.getenv environ "MYSQL_PORT" "3306"))
    ∧ ∀ key, key ∈ Config.required_keys →
             ∃ v, environ key = Some v ∧ v ≠ "".
Proof.
  unfold Config.load, Config.init.
  destruct (int (Config.getenv environ "MYSQL_PORT" "3306")) as [port|].
  2:{ split; [by intros [cfg ?]|]. by intros [[? ?] _]. }
  set (cfg := Config.Make _ _ _ _ _ _ _ _ _ _ _).
  assert (∀ key, Config.getenv environ key "" ≠ ""
                 ↔ ∃ v, environ key = Some v ∧ v ≠ "") as Hget.
  { intros key. unfold Config.getenv. destruct (environ key) as [v|].
    - split; [intros ?; by exists v|by intros (? & [= <-] & ?)].
    - split; [done|by intros (? & ? & ?)]. }
  assert (Config.validate cfg = inr tt
          ↔ ∀ key, key ∈ Config.required_keys →
                   ∃ v, environ key = Some v ∧ v ≠ "") as Hv.
  { rewrite validate_ok_iff.
    assert (Config.required cfg
            = (λ key, (key, Config.getenv environ key ""))
                <$> Config.required_keys) as -> by reflexivity.
    split.
    - intros H key Hkey. apply Hget.
      apply (H (key, Config.getenv environ key "")).
      by apply (list_elem_of_fmap_2 (λ key, (key, Config.getenv environ key ""))).
    - intros H kv Hkv. apply list_elem_of_fmap in Hkv as (key & -> & Hkey).
      cbn [snd]. by apply Hget, H. }
  split.
  - intros [cfg' Hload]. split; [done|]. apply Hv.
    by destruct (Config.validate cfg) as [e|[]].
  - intros [_ Hall]. exists cfg. apply Hv in Hall. by rewrite Hall.
Qed.

(** ** The pool of [db.py] and the client of [notifier.py]

    Each module keeps its object in a global that is [None] until the first
    successful initialisation; the state of a computation is that global
    together with the world. *)
Module DbPool.

(** The values of the connection arguments. *)
Inductive arg : Type :=
| AStr (s : string)
| AInt (n : Z)
| ABool (b : bool).

(** Lines 16 to 33 of [init_pool]; [path_exists] is the answer of
    [os.path.exists], [None] when it raises. *)
Definition conn_args (host : string) (port : Z) (database user password : string)
    (ssl_disabled : bool) (ssl_ca_path : option string)
    (path_exists : string → option bool) : gmap string arg :=
  let conn_args : gmap string arg :=
    <["autocommit" := ABool false]>
      (<["password" := AStr password]>
         (<["user" := AStr user]>
            (<["database" := AStr database]>
               (<["port" := AInt port]> (<["host" := AStr host]> ∅))))) in
  if ssl_disabled then <["ssl_disabled" := ABool true]> conn_args
  else if Py.truthy ssl_ca_path then
    match ssl_ca_path with
    | Some path =>
        match path_exists path with
        | Some true =>
            <["ssl_verify_cert" := ABool true]> (<["ssl_ca" := AStr path]> conn_args)
        | Some false | None => conn_args
        end
    | None => conn_args
    end
  else conn_args.

Section InitPool.
Context {W P : Type}.

(** [pooling.MySQLConnectionPool(pool_name=, pool_size=, **conn_args)] and
    [os.path.exists]. *)
Variable MySQLConnectionPool :
  string → Z → gmap string arg → W → (Eff.exn + P) * W.
Variable path_exists : W → string → option bool.

Definition init_pool (host : string) (port : Z) (database user password : string)
    (ssl_disabled : bool) (ssl_ca_path : option string)
  : Eff.M (option P * W) unit :=
  fun s =>
    match s.1 with
    | Some _ => (inr tt, s)
    | None =>
        match MySQLConnectionPool "habit_pool" 8
                (conn_args host port database user password ssl_disabled
                           ssl_ca_path (path_exists s.2)) s.2 with
        | (inr pool, w') => (inr tt, (Some pool, w'))
        | (inl e, w') => (inl e, (None, w'))
        end
    end.

End InitPool.
End DbPool.

Module NotifierClient.
Section InitClient.
Context {W C : Type}.

(** [twilio.rest.Client(account_sid, auth_token)] *)
Variable Client : string → string → W → (Eff.exn + C) * W.

Definition init_client (account_sid auth_token : string)
  : Eff.M (option C * W) unit :=
  fun s =>
    match s.1 with
    | Some _ => (inr tt, s)
    | None =>
        match Client account_sid auth_token s.2 with
        | (inr client, w') => (inr tt, (Some client, w'))
        | (inl e, w') => (inl e, (None, w'))
        end
    end.

End InitClient.
End NotifierClient.

(** The connection arguments never hold both [ssl_disabled] and [ssl_ca]:
    disabling SSL wins over a certificate path.  [ssl_ca] is set only to a
    path that is not empty and exists, and always together with
    [ssl_verify_cert]; [autocommit] is always off and the five given
    settings are passed on as they are. *)
Theorem conn_args_ssl (host : string) (port : Z) (database user password : string)
    (ssl_disabled : bool) (ssl_ca_path : option string)
    (path_exists : string → option bool) :
  let args := DbPool.conn_args host port database user password
                               ssl_disabled ssl_ca_path path_exists in
  args !! "ssl_disabled"
  = (if ssl_disabled then Some (DbPool.ABool true) else None)
  ∧ (ssl_disabled = true → args !! "ssl_ca" = None)
  ∧ (∀ v, args !! "ssl_ca" = Some v →
          ∃ path, ssl_ca_path = Some path ∧ path ≠ ""
                  ∧ path_exists path = Some true ∧ v = DbPool.AStr path)
  ∧ (is_Some (args !! "ssl_ca")
     ↔ args !! "ssl_verify_cert" = Some (DbPool.ABool true))
  ∧ args !! "autocommit" = Some (DbPool.ABool false)
  ∧ args !! "host" = Some (DbPool.AStr host)
  ∧ args !! "port" = Some (DbPool.AInt port)
  ∧ args !! "database" = Some (DbPool.AStr database)
  ∧ args !! "user" = Some (DbPool.AStr user)
  ∧ args !! "password" = Some (DbPool.AStr password).
Proof.
  cbv zeta. unfold DbPool.conn_args, Py.truthy.
  destruct ssl_disabled.
  { repeat split; try (by simplify_map_eq); intros; by simplify_map_eq. }
  destruct ssl_ca_path as [path|].
  2:{ repeat split; try (by simplify_map_eq); intros; by simplify_map_eq. }
  destruct (String.eqb_spec path "") as [->|Hne]; cbn [negb].
  { repeat split; try (by simplify_map_eq); intros; by simplify_map_eq. }
  destruct (path_exists path) as [[|]|] eqn:Hex.
  - repeat split; try (by simplify_map_eq); try (intros; by simplify_map_eq).
    intros v Hv. exists path. by simplify_map_eq.
  - repeat split; try (by simplify_map_eq); intros; by simplify_map_eq.
  - repeat split; try (by simplify_map_eq); intros; by simplify_map_eq.
Qed.

(** [init_pool] creates the pool at most once.  With a pool in place it
    does nothing, whatever its arguments; after a call that returned, the
    pool is in place and every later call does nothing; a call that raised
    found no pool and left none. *)
Theorem init_pool_once {W P : Type}
    (MySQLConnectionPool :
       string → Z → gmap string DbPool.arg → W → (Eff.exn + P) * W)
    (path_exists : W → string → option bool)
    (host host' : string) (port port' : Z)
    (database database' user user' password password' : string)
    (ssl_disabled ssl_disabled' : bool) (ssl_ca_path ssl_ca_path' : option string)
    (s : option P * W) :
  let first := DbPool.init_pool MySQLConnectionPool path_exists host port database
                                user password ssl_disabled ssl_ca_path in
  let later := DbPool.init_pool MySQLConnectionPool path_exists host' port'
                                database' user' password' ssl_disabled'
                                ssl_ca_path' in
  (is_Some s.1 → first s = (inr tt, s))
  ∧ match first s with
    | (inr _, s1) => is_Some s1.1 ∧ later s1 = (inr tt, s1)
    | (inl _, s1) => s.1 = None ∧ s1.1 = None
    end.
Proof.
  cbv zeta. unfold DbPool.init_pool. destruct s as [[pool|] w]; cbn [fst snd].
  - split; [done|]. split; [by eexists|done].
  - split; [by intros [? ?]|].
    destruct (MySQLConnectionPool _ _ _ w) as [[e|pool] w']; cbn [fst snd]; [done|].
    split; [by eexists|done].
Qed.

(** [init_client] creates the client at most once, in the same way. *)
Theorem init_client_once {W C : Type}
    (Client : string → string → W → (Eff.exn + C) * W)
    (account_sid account_sid' auth_token auth_token' : string)
    (s : option C * W) :
  let first := NotifierClient.init_client Client account_sid auth_token in
  let later := NotifierClient.init_client Client account_sid' auth_token' in
  (is_Some s.1 → first s = (inr tt, s))
  ∧ match first s with
    | (inr _, s1) => is_Some s1.1 ∧ later s1 = (inr tt, s1)
    | (inl _, s1) => s.1 = None ∧ s1.1 = None
    end.
Proof.
  cbv zeta. unfold NotifierClient.init_client.
  destruct s as [[client|] w]; cbn [fst snd].
  - split; [done|]. split; [by eexists|done].
  - split; [by intros [? ?]|].
    destruct (Client _ _ w) as [[e|client] w']; cbn [fst snd]; [done|].
    split; [by eexists|done].
Qed.

(** ** [src/app/habit_notifier.py]: configuration, delivery and [run] *)
Module HabitNotifierApp.

(** [DatabaseConfig] and [TwilioConfig]: what [os.getenv] gave. *)
Record database_config : Type := DatabaseConfig {
  host : string;
  port : Z;
  user : option string;
  password : option string;
  database : option string
}.

Record twilio_config : Type := TwilioConfig {
  account_sid : option string;
  auth_token : option string;
  from_number : option string
}.

(** [all([a, b, c])] on values that are [None] or strings. *)
Definition all3 (a b c : option string) : bool :=
  Py.truthy a && Py.truthy b && Py.truthy c.

(** Lines 38 to 41. *)
Definition validate_database (c : database_config) : Eff.exn + unit :=
  if negb (all3 (user c) (password c) (database c))
  then inl (Eff.Exception "Missing required database configuration")
  else inr tt.

(** Lines 51 to 54. *)
Definition validate_twilio (c : twilio_config) : Eff.exn + unit :=
  if negb (all3 (account_sid c) (auth_token c) (from_number c))
  then inl (Eff.Exception "Missing required Twilio configuration")
  else inr tt.

(** The attributes of a [HabitNotifier] that [run] tests. *)
Record self : Type := Self {
  db_connection : bool;         (* [self.db_connection] is set *)
  twilio_client : bool          (* [self.twilio_client] is set *)
}.

Section Run.
Context {W : Type} {R : Runtime W}.

(** [pytz.timezone]; [pymysql.connect]; [twilio.rest.Client];
    [messages.create(body=, from_=, to=)], which answers the message's
    sid; [connection.close()]; the text of lines 200 to 204 for a name;
    and the test [isinstance(e, TwilioRestException)]. *)
Variable pytz_timezone : string → option Tz.zone.
Variable pymysql_connect : database_config → W → (Eff.exn + unit) * W.
Variable Client : twilio_config → W → (Eff.exn + unit) * W.
Variable messages_create :
  string → option string → option string → W → (Eff.exn + string) * W.
Variable connection_close : W → W.
Variable message_body : string → string.
Variable is_twilio_rest_exception : Eff.exn → bool.

Variable db_config : database_config.
Variable tw_config : twilio_config.

Definition text_of (e : Eff.exn) : string :=
  match e with Eff.Exception s => s end.

(** Lines 66 to 81. *)
Definition connect_db : Eff.M (self * W) unit :=
  fun s =>
    match pymysql_connect db_config s.2 with
    | (inr _, w) =>
        (inr tt,
         (Self true (twilio_client s.1),
          logging_handle
            (Py.LogRecord Py.INFO "Database connection established" []) w))
    | (inl e, w) =>
        (inl e,
         (s.1,
          logging_handle
            (Py.LogRecord Py.ERROR "Failed to connect to database"
                          [("error", Py.VStr (text_of e))]) w))
    end.

(** Lines 83 to 93. *)
Definition connect_twilio : Eff.M (self * W) unit :=
  fun s =>
    match Client tw_config s.2 with
    | (inr _, w) =>
        (inr tt,
         (Self (db_connection s.1) true,
          logging_handle (Py.LogRecord Py.INFO "Twilio client initialized" []) w))
    | (inl e, w) =>
        (inl e,
         (s.1,
          logging_handle
            (Py.LogRecord Py.ERROR "Failed to initialize Twilio client"
                          [("error", Py.VStr (text_of e))]) w))
    end.

(** Lines 189 to 226: both [except] clauses log an error and answer
    [False]. *)
Definition send_notification (user : HabitNotifier.entry) : Eff.M W bool :=
  Eff.try_except
    (sid ← (messages_create (message_body (HabitNotifier.e_name user))
                            (from_number tw_config)
                            (HabitNotifier.e_phone_number user) : Eff.M W string);
     log Py.INFO "Notification sent"
         [("name", Py.VStr (HabitNotifier.e_name user));
          ("phone_number", Py.of_opt_str (HabitNotifier.e_phone_number user));
          ("sid", Py.VStr sid)];;
     Eff.ret true)
    (fun e =>
       (if is_twilio_rest_exception e
        then log Py.ERROR "Twilio error sending notification"
                 [("name", Py.VStr (HabitNotifier.e_name user));
                  ("error", Py.VStr (text_of e))]
        else log Py.ERROR "Error sending notification"
                 [("name", Py.VStr (HabitNotifier.e_name user));
                  ("error", Py.VStr (text_of e))]);;
       Eff.ret false).

(** Lines 248 to 252: the loop with its two counters. *)
Fixpoint send_all (users : list HabitNotifier.entry)
    (success_count failure_count : Z) : Eff.M W (Z * Z) :=
  match users with
  | [] => Eff.ret (success_count, failure_count)
  | user :: rest =>
      Eff.bind (send_notification user)
               (fun sent : bool =>
                  if sent then send_all rest (success_count + 1) failure_count
                  else send_all rest success_count (failure_count + 1))
  end.

(** Lines 234 to 257: the body of the [try]; its value is the two
    counters, which are still zero at the early [return]. *)
Definition run_try : Eff.M (self * W) (Z * Z) :=
  Eff.lift (log Py.INFO "Starting habit notification job" []);;
  connect_db;;
  connect_twilio;;
  users ← Eff.lift (HabitNotifier.get_users_needing_notification pytz_timezone);
  match users return Eff.M (self * W) (Z * Z) with
  | [] =>
      Eff.lift (log Py.INFO "No users need notifications at this time" []);;
      Eff.ret (0, 0)
  | _ :: _ =>
      '(success_count, failure_count) ← Eff.lift (send_all users 0 0);
      Eff.lift (log Py.INFO "Job completed"
                    [("sent", Py.VInt success_count);
                     ("failed", Py.VInt failure_count)]);;
      Eff.ret (success_count, failure_count)
  end.

(** Lines 262 to 265: the [finally]. *)
Definition run_finally (s : self * W) : self * W :=
  if db_connection s.1 then
    (s.1,
     logging_handle (Py.LogRecord Py.INFO "Database connection closed" [])
                    (connection_close s.2))
  else s.

(** Lines 228 to 269.  [sys.exit(1)] is the answer [Some 1]; [None] is a
    normal return. *)
Definition run (s : self * W) : option Z * (self * W) :=
  match run_try s with
  | (inl e, s1) =>
      (Some 1,
       run_finally
         (s1.1,
          logging_handle
            (Py.LogRecord Py.ERROR "Job failed with error"
                          [("error", Py.VStr (text_of e))]) s1.2))
  | (inr (success_count, failure_count), s1) =>
      (if 0 <? failure_count then Some 1 else None, run_finally s1)
  end.

End Run.
End HabitNotifierApp.

Section HabitNotifierRun.
Context {W : Type} {R : Runtime W}.
Variable pytz_timezone : string → option Tz.zone.
Variable pymysql_connect :
  HabitNotifierApp.database_config → W → (Eff.exn + unit) * W.
Variable Client : HabitNotifierApp.twilio_config → W → (Eff.exn + unit) * W.
Variable messages_create :
  string → option string → option string → W → (Eff.exn + string) * W.
Variable connection_close : W → W.
Variable message_body : string → string.
Variable is_twilio_rest_exception : Eff.exn → bool.
Variable db_config : HabitNotifierApp.database_config.
Variable tw_config : HabitNotifierApp.twilio_config.


Lemma send_notification_returns (user : HabitNotifier.entry) (w : W) :
  ∃ sent w',
    HabitNotifierApp.send_notification messages_create message_body
      is_twilio_rest_exception tw_config user w = (inr sent, w').
Proof.
  unfold HabitNotifierApp.send_notification, Eff.try_except, mbind, M_bind,
    Eff.bind, log, Eff.modify, Eff.ret.
  destruct (messages_create _ _ _ w) as [[e|sid] w1]; [|by eexists _, _].
  destruct (is_twilio_rest_exception e); by eexists _, _.
Qed.

(** The loop of [run] never raises and counts every user once, as a
    success or as a failure: the two counters grow, and their sum grows by
    the number of users. *)
Theorem send_all_counts (users : list HabitNotifier.entry)
    (success_count failure_count : Z) (w : W) :
  ∃ success_count' failure_count' w',
    HabitNotifierApp.send_all messages_create message_body
      is_twilio_rest_exception tw_config users success_count failure_count w
    = (inr (success_count', failure_count'), w')
    ∧ success_count ≤ success_count'
    ∧ failure_count ≤ failure_count'
    ∧ success_count' + failure_count'
      = success_count + failure_count + Z.of_nat (length users).
Proof.
  revert success_count failure_count w.
  induction users as [|user rest IH]; intros success_count failure_count w.
  - exists success_count, failure_count, w. cbn. repeat split; lia.
  - cbn [HabitNotifierApp.send_all]. unfold Eff.bind.
    destruct (send_notification_returns user w) as (sent & w1 & ->).
    destruct sent.
    + destruct (IH (success_count + 1) failure_count w1)
        as (s' & f' & w' & -> & Hs & Hf & Hsum).
      exists s', f', w'. cbn [length]. repeat split; lia.
    + destruct (IH success_count (failure_count + 1) w1)
        as (s' & f' & w' & -> & Hs & Hf & Hsum).
      exists s', f', w'. cbn [length]. repeat split; lia.
Qed.

Lemma run_status_cases (s : HabitNotifierApp.self * W) :
  let status := (HabitNotifierApp.run pytz_timezone pymysql_connect Client
                   messages_create connection_close message_body
                   is_twilio_rest_exception db_config tw_config s).1 in
  status = None ∨ status = Some 1.
Proof.
  cbv zeta. unfold HabitNotifierApp.run.
  destruct (HabitNotifierApp.run_try _ _ _ _ _ _ _ _ s)
    as [[e|[success_count failure_count]] s1]; cbn [fst]; [by right|].
  destruct (0 <? failure_count); [by right|by left].
Qed.

(** The answers of [send_notification] for the users in turn, each in
    the world in which the loop reaches that user; [true] stands for
    [True]. *)
Fixpoint answers (users : list HabitNotifier.entry) (w : W) : list bool :=
  match users with
  | [] => []
  | user :: rest =>
      let r := HabitNotifierApp.send_notification messages_create message_body
                 is_twilio_rest_exception tw_config user w in
      match r.1 with inr sent => sent | inl _ => false end :: answers rest r.2
  end.

(** Lines 234 to 241 of [run]: what is done before the users are looked
    at. *)
Definition run_prefix
  : Eff.M (HabitNotifierApp.self * W) (list HabitNotifier.entry) :=
  Eff.lift (log Py.INFO "Starting habit notification job" []);;
  HabitNotifierApp.connect_db pymysql_connect db_config;;
  HabitNotifierApp.connect_twilio Client tw_config;;
  Eff.lift (HabitNotifier.get_users_needing_notification pytz_timezone).

Lemma count_pos (b : bool) (l : list bool) : 0 < count b l ↔ b ∈ l.
Proof.
  induction l as [|x l IH].
  - split; [by unfold count; cbn; lia|by intros ?%not_elem_of_nil].
  - rewrite count_cons, elem_of_cons. case_bool_decide as Hx.
    + split; [by left|]. intros _.
      assert (0 ≤ count b l) by (unfold count; lia). lia.
    + rewrite Z.add_0_l, IH. split; [by right|]. by intros [->|?].
Qed.

Lemma count_zero (b : bool) (l : list bool) :
  count b l = 0 ↔ Forall (fun x => x = negb b) l.
Proof.
  induction l as [|x l IH]; [by split|].
  rewrite count_cons, Forall_cons, <- IH.
  assert (0 ≤ count b l) by (unfold count; lia).
  case_bool_decide as Hx.
  - split; [lia|]. intros [-> _]. by destruct b.
  - split; [|by intros [_ ->]]. intros Hc. split; [|lia].
    by destruct x, b.
Qed.

(** The loop adds the answers [True] to [success_count] and the answers
    [False] to [failure_count]. *)
Lemma send_all_tally (users : list HabitNotifier.entry)
    (success_count failure_count : Z) (w : W) :
  (HabitNotifierApp.send_all messages_create message_body
     is_twilio_rest_exception tw_config users success_count failure_count w).1
  = inr (success_count + count true (answers users w),
         failure_count + count false (answers users w)).
Proof.
  revert success_count failure_count w.
  induction users as [|user rest IH]; intros success_count failure_count w.
  - cbn. unfold count. cbn. do 2 f_equal; lia.
  - cbn [HabitNotifierApp.send_all answers]. unfold Eff.bind.
    destruct (send_notification_returns user w) as (sent & w1 & ->).
    cbn [fst snd]. rewrite !count_cons.
    destruct sent; rewrite IH.
    + rewrite bool_decide_eq_true_2, bool_decide_eq_false_2 by done.
      do 2 f_equal; lia.
    + rewrite bool_decide_eq_false_2, bool_decide_eq_true_2 by done.
      do 2 f_equal; lia.
Qed.

Lemma run_try_of_prefix (s : HabitNotifierApp.self * W) :
  HabitNotifierApp.run_try pytz_timezone pymysql_connect Client
    messages_create message_body is_twilio_rest_exception db_config tw_config s
  = match run_prefix s with
    | (inl e, s1) => (inl e, s1)
    | (inr [], s1) =>
        (inr (0, 0),
         (s1.1,
          logging_handle
            (Py.LogRecord Py.INFO "No users need notifications at this time" [])
            s1.2))
    | (inr users, s1) =>
        match HabitNotifierApp.send_all messages_create message_body
                is_twilio_rest_exception tw_config users 0 0 s1.2 with
        | (inl e, w2) => (inl e, (s1.1, w2))
        | (inr (success_count, failure_count), w2) =>
            (inr (success_count, failure_count),
             (s1.1,
              logging_handle
                (Py.LogRecord Py.INFO "Job completed"
                   [("sent", Py.VInt success_count);
                    ("failed", Py.VInt failure_count)]) w2))
        end
    end.
Proof.
  destruct s as [self0 w0].
  unfold HabitNotifierApp.run_try, run_prefix, mbind, M_bind, Eff.bind.
  rewrite !lift_run. unfold log, Eff.modify. cbn [fst snd].
  destruct (HabitNotifierApp.connect_db _ _ _) as [[e|[]] s1]; [done|].
  destruct (HabitNotifierApp.connect_twilio _ _ _) as [[e|[]] [self2 w2]];
    [done|].
  rewrite !lift_run. cbn [fst snd].
  destruct (HabitNotifier.get_users_needing_notification _ _)
    as [[e|[|u rest]] w3]; cbn [fst snd]; [done| |].
  - unfold Eff.lift. reflexivity.
  - rewrite lift_run.
    destruct (HabitNotifierApp.send_all _ _ _ _ _ _ _ _)
      as [[e|[sc fc]] w4]; cbn [fst snd]; [done|].
    unfold Eff.lift. reflexivity.
Qed.

(** [run] ends with [sys.exit(1)] exactly when the body of its [try]
    raised or [send_notification] answered [False] for at least one of
    the users, and returns normally otherwise, also when no user needs a
    notification: [success_count] is the number of answers [True] and
    [failure_count] the number of answers [False].  Whatever happens, a
    connection that is in place after the [try] is closed: the last thing
    done is the record that follows [close]. *)
Theorem run_exit_status (s : HabitNotifierApp.self * W) :
  let try_ := HabitNotifierApp.run_try pytz_timezone pymysql_connect Client
                messages_create message_body is_twilio_rest_exception
                db_config tw_config s in
  let end_ := HabitNotifierApp.run pytz_timezone pymysql_connect Client
                messages_create connection_close message_body
                is_twilio_rest_exception db_config tw_config s in
  (end_.1 = Some 1
   ↔ match try_.1 with
     | inl _ => True
     | inr (_, failure_count) => 0 < failure_count
     end)
  ∧ match run_prefix s with
    | (inl e, s1) => try_ = (inl e, s1) ∧ end_.1 = Some 1
    | (inr users, s1) =>
        try_.1 = inr (count true (answers users s1.2),
                      count false (answers users s1.2))
        ∧ (end_.1 = Some 1 ↔ false ∈ answers users s1.2)
        ∧ (end_.1 = None ↔ Forall (fun sent => sent = true) (answers users s1.2))
    end
  ∧ (end_.1 = None ∨ end_.1 = Some 1)
  ∧ end_.2.1 = try_.2.1
  ∧ (HabitNotifierApp.db_connection try_.2.1 = true →
     ∃ w', end_.2.2
           = logging_handle
               (Py.LogRecord Py.INFO "Database connection closed" [])
               (connection_close w'))
  ∧ (HabitNotifierApp.db_connection try_.2.1 = false →
     Eff.returned try_.1 = false).
Proof.
  cbv zeta.
  assert (match run_prefix s with
          | (inl e, s1) =>
              HabitNotifierApp.run_try pytz_timezone pymysql_connect Client
                messages_create message_body is_twilio_rest_exception
                db_config tw_config s = (inl e, s1)
          | (inr users, s1) =>
              (HabitNotifierApp.run_try pytz_timezone pymysql_connect Client
                 messages_create message_body is_twilio_rest_exception
                 db_config tw_config s).1
              = inr (count true (answers users s1.2),
                     count false (answers users s1.2))
          end) as Hprefix.
  { rewrite run_try_of_prefix.
    destruct (run_prefix s) as [[e|users] s1]; [done|].
    destruct users as [|u rest]; [done|].
    pose proof (send_all_tally (u :: rest) 0 0 s1.2) as Ht.
    destruct (HabitNotifierApp.send_all _ _ _ _ _ _ _ _)
      as [[e|[sc fc]] w2]; cbn [fst] in Ht |- *; [done|].
    by rewrite Ht, !Z.add_0_l. }
  unfold HabitNotifierApp.run. destruct s as [self0 w0].
  destruct (HabitNotifierApp.run_try _ _ _ _ _ _ _ _ (self0, w0))
    as [[e|[success_count failure_count]] [self1 w1]] eqn:Htry;
    cbn [fst snd]; unfold HabitNotifierApp.run_finally; cbn [fst snd].
  - split; [done|]. split.
    { destruct (run_prefix (self0, w0)) as [[e'|users] s1]; [done|].
      cbn [fst] in Hprefix. done. }
    split; [by right|].
    destruct (HabitNotifierApp.db_connection self1) eqn:Hconn; cbn [fst snd].
    + split; [done|]. split; [by eexists|done].
    + split; [done|]. split; [done|done].
  - split.
    { destruct (Z.ltb_spec 0 failure_count); split; try done; lia. }
    split.
    { destruct (run_prefix (self0, w0)) as [[e'|users] s1]; [done|].
      cbn [fst] in Hprefix. injection Hprefix as -> ->.
      split; [done|]. rewrite <- count_pos.
      rewrite <- (count_zero false (answers users s1.2)).
      destruct (Z.ltb_spec 0 (count false (answers users s1.2))).
      - split; [done|]. split; [done|lia].
      - split; [split; [done|lia]|]. split; [intros _|done].
        assert (0 ≤ count false (answers users s1.2)) by (unfold count; lia).
        lia. }
    split; [destruct (0 <? failure_count); [by right|by left]|].
    destruct (HabitNotifierApp.db_connection self1) eqn:Hconn; cbn [fst snd].
    + split; [done|]. split; [by eexists|done].
    + split; [done|]. split; [done|]. intros _. exfalso.
      revert Htry. unfold HabitNotifierApp.run_try, mbind, M_bind, Eff.bind.
      rewrite lift_run. cbn [fst snd].
      unfold HabitNotifierApp.connect_db. cbn [fst snd].
      destruct (pymysql_connect db_config _) as [[e|[]] w2]; [done|].
      unfold HabitNotifierApp.connect_twilio. cbn [fst snd].
      destruct (Client tw_config _) as [[e|[]] w3]; [done|].
      rewrite lift_run.
      destruct (HabitNotifier.get_users_needing_notification _ _)
        as [[e|users] w4]; cbn [fst snd]; [done|].
      destruct users as [|u rest].
      * rewrite lift_run. cbn. intros [= _ _ <- _]. done.
      * rewrite lift_run.
        destruct (HabitNotifierApp.send_all _ _ _ _ _ _ _ _)
          as [[e|[sc fc]] w5]; cbn [fst snd]; [done|].
        rewrite lift_run. cbn. intros [= _ _ <- _]. done.
Qed.

End HabitNotifierRun.

(** ** What [get_users_needing_notification] reports *)

Definition entry_of (ur : Schema.user_row * string) : HabitNotifier.entry :=
  HabitNotifier.Entry (Schema.u_id ur.1) (Schema.u_name ur.1)
                      (Schema.u_phone_number ur.1) ur.2.

Definition known_reason (why : string) : Prop :=
  why = "No logs in the past 2 days"
  ∨ why = "Logged 2 days ago but not yesterday".

Section HabitNotifierReports.
Context {W : Type} {R : Runtime W}.
Variable pytz_timezone : string → option Tz.zone.

Lemma habit_notifier_decide_reason has_yesterday_log has_two_days_ago_log why :
  HabitNotifier.decide_notify has_yesterday_log has_two_days_ago_log = (true, why) →
  known_reason why.
Proof.
  unfold HabitNotifier.decide_notify, known_reason.
  destruct has_yesterday_log, has_two_days_ago_log; cbn; intros [= <-]; auto.
Qed.

(** One turn of the loop leaves the list alone or appends one entry, made
    from this user's row, with one of the two reasons. *)
Lemma habit_notifier_turn user acc w :
  match HabitNotifier.for_user pytz_timezone user (acc, w) with
  | (inl _, (acc', _)) => acc' = acc
  | (inr _, (acc', _)) =>
      acc' = acc
      ∨ ∃ why, acc' = acc ++ [entry_of (user, why)] ∧ known_reason why
  end.
Proof.
  unfold HabitNotifier.for_user, mbind, M_bind, Eff.bind. rewrite lift_run.
  destruct (HabitNotifier.user_tz_of pytz_timezone _ w) as [[e|tz] w1];
    cbn [fst snd]; [done|].
  rewrite lift_run. unfold now_utc.
  destruct (datetime_now w1) as [now w2]. cbn [fst snd].
  rewrite lift_run.
  destruct (mysql_execute w2) as [[e|db] w3]; cbn [fst snd]; [done|].
  unfold HabitNotifier.evaluate.
  destruct (HabitNotifier.decide_notify _ _) as [[|] why] eqn:Hd.
  - unfold Eff.modify. cbn [fst snd]. rewrite lift_run. cbn.
    right. exists why. split; [done|]. by eapply habit_notifier_decide_reason.
  - cbn. by left.
Qed.

Lemma habit_notifier_loop users acc w :
  match Eff.for_each users (HabitNotifier.for_user pytz_timezone) (acc, w) with
  | (inl _, _) => True
  | (inr _, (acc', _)) =>
      ∃ reported : list (Schema.user_row * string),
        acc' = acc ++ (entry_of <$> reported)
        ∧ reported.*1 `sublist_of` users
        ∧ Forall (fun ur => known_reason ur.2) reported
  end.
Proof.
  revert acc w. induction users as [|user rest IH]; intros acc w.
  - cbn. exists []. cbn. rewrite app_nil_r. repeat split; [done|constructor].
  - cbn [Eff.for_each]. unfold Eff.bind.
    pose proof (habit_notifier_turn user acc w) as Hturn.
    destruct (HabitNotifier.for_user pytz_timezone user (acc, w))
      as [[e|[]] [acc1 w1]]; [done|].
    specialize (IH acc1 w1).
    destruct (Eff.for_each rest _ (acc1, w1)) as [[e|[]] [acc2 w2]]; [done|].
    destruct IH as (reported & -> & Hsub & Hall).
    destruct Hturn as [->|(why & -> & Hwhy)].
    + exists reported. split; [done|]. split; [by apply sublist_cons|done].
    + exists ((user, why) :: reported). cbn [fmap list_fmap].
      rewrite <- app_assoc. split; [done|].
      split; [by apply sublist_skip|by constructor].
Qed.

(** When [get_users_needing_notification] returns, every entry of its
    answer is made from the row of a user with a phone number and carries
    one of the two reasons; the entries follow the order of the table and
    each row gives at most one entry, so there are never more entries than
    users with a phone. *)
Theorem habit_notifier_reports (w w' : W) (entries : list HabitNotifier.entry) :
  HabitNotifier.get_users_needing_notification pytz_timezone w
  = (inr entries, w') →
  ∃ db (reported : list (Schema.user_row * string)),
    (mysql_execute w).1 = inr db
    ∧ entries = entry_of <$> reported
    ∧ reported.*1 `sublist_of`
        filter (fun u => Is_true (Schema.has_phone u)) (Schema.User db)
    ∧ Forall (fun ur => known_reason ur.2) reported
    ∧ (length entries
       ≤ length (filter (fun u => Is_true (Schema.has_phone u)) (Schema.User db)))%nat.
Proof.
  unfold HabitNotifier.get_users_needing_notification, Eff.try_except,
    mbind, M_bind, Eff.bind, log, Eff.modify, Eff.raise, Eff.ret.
  destruct (mysql_execute w) as [[e|db] w1]; cbn [fst snd]; [done|].
  unfold Eff.with_locals.
  pose proof (habit_notifier_loop
                (filter (fun u => Is_true (Schema.has_phone u)) (Schema.User db))
                [] (logging_handle
                      (Py.LogRecord Py.INFO "Found users with phone numbers"
                         [("count",
                           Py.VInt (Z.of_nat
                             (length (filter (fun u => Is_true (Schema.has_phone u))
                                             (Schema.User db)))))]) w1)) as Hloop.
  destruct (Eff.for_each _ _ _) as [[e|[]] [acc w2]]; [done|].
  destruct Hloop as (reported & -> & Hsub & Hall). cbn [app].
  intros [= <- <-]. exists db, reported. repeat split; try done.
  rewrite length_fmap, <- (length_fmap fst reported).
  by apply sublist_length.
Qed.

End HabitNotifierReports.

(** The five users at noon of 2024-03-11: users 1, 2 and 5 are reported. *)
Lemma habit_notifier_reports_witness :
  let w := Sim.ready Sim.noon_2024_03_11 Sim.five_users [] [] in
  ∃ db (reported : list (Schema.user_row * string)),
    (mysql_execute w).1 = inr db
    ∧ (HabitNotifier.get_users_needing_notification Sim.tzdata w).1
      = inr (entry_of <$> reported)
    ∧ reported.*1 `sublist_of`
        filter (fun u => Is_true (Schema.has_phone u)) (Schema.User db)
    ∧ Forall (fun ur => known_reason ur.2) reported
    ∧ (length (entry_of <$> reported)
       ≤ length (filter (fun u => Is_true (Schema.has_phone u)) (Schema.User db)))%nat.
Proof.
  cbv zeta.
  destruct (habit_notifier_reports (R := Sim.runtime) Sim.tzdata
              (Sim.ready Sim.noon_2024_03_11 Sim.five_users [] [])
              (HabitNotifier.get_users_needing_notification Sim.tzdata
                 (Sim.ready Sim.noon_2024_03_11 Sim.five_users [] [])).2
              (match (HabitNotifier.get_users_needing_notification Sim.tzdata
                        (Sim.ready Sim.noon_2024_03_11 Sim.five_users [] [])).1
               with inr l => l | inl _ => [] end))
    as (db & reported & H1 & H2 & H3 & H4 & H5).
  - by vm_compute.
  - exists db, reported. rewrite <- H2. repeat split; try done.
Defined.

(** * Further properties of [src/habit-tracker-cronjob/main.py] *)
Module LegacyJob.

(** The query of [get_users_to_notify] with its two parameters; the two
    are computed from two readings of the clock. *)
Definition select_users (db : Schema.tables) (two_days_ago yesterday : Z)
  : list Schema.user_row :=
  filter (fun u => Is_true (Legacy.having
                              (Legacy.joined_logs db (Schema.u_id u) two_days_ago)
                              yesterday))
         (Schema.User db).

(** Line 79. *)
Definition message_for (u : Schema.user_row) : string :=
  "Hi " ++ Schema.u_name u
        ++ ", you have missed your habit logs. Keep up the good work!".

Section LegacyJob.
Context {W : Type} {R : Runtime W}.

(** [mysql.connector.connect] with the settings of the environment;
    [connection.cursor(dictionary=True)];
    [isinstance(e, mysql.connector.Error)]; [datetime.now()];
    [cursor.close()] and [connection.close()]; lines 27 to 36, the client
    and its [messages.create]. *)
Variable connect : W → (Eff.exn + unit) * W.
Variable cursor : W → (Eff.exn + unit) * W.
Variable is_mysql_error : Eff.exn → bool.
Variable datetime_now_local : W → Z * W.
Variable cursor_close : W → (Eff.exn + unit) * W.
Variable connection_close : W → (Eff.exn + unit) * W.
Variable twilio_send : option string → string → W → (Eff.exn + unit) * W.

Definition text_of (e : Eff.exn) : string :=
  match e with Eff.Exception s => s end.

(** Lines 10 to 22. *)
Definition get_db_connection : Eff.M W unit :=
  Eff.try_except (connect : Eff.M W unit)
    (fun e =>
       (if is_mysql_error e
        then log Py.ERROR "Error connecting to database"
                 [("error", Py.VStr (text_of e))]
        else Eff.ret tt);;
       Eff.raise e).

(** Lines 24 to 39. *)
Definition send_twilio_notification (phone_number : option string)
    (message : string) : Eff.M W unit :=
  Eff.try_except
    ((twilio_send phone_number message : Eff.M W unit);;
     log Py.INFO "Successfully sent notification"
         [("phone_number", Py.of_opt_str phone_number)])
    (fun e =>
       log Py.ERROR "Failed to send Twilio notification"
           [("phone_number", Py.of_opt_str phone_number);
            ("error", Py.VStr (text_of e))]).

Definition now_local : Eff.M W Z :=
  fun w => match datetime_now_local w with (t, w') => (inr t, w') end.

(** Lines 65 to 67, the [finally], entered with the outcome [r] of lines
    58 to 64: an exception raised here takes the place of [r], and the
    connection is closed only when closing the cursor returned. *)
Definition finally_close {A} (r : Eff.exn + A) : Eff.M W A :=
  Eff.bind (cursor_close : Eff.M W unit) (fun _ =>
    Eff.bind (connection_close : Eff.M W unit) (fun _ =>
      (fun w => (r, w)) : Eff.M W A)).

(** Lines 58 to 67: the query, its [except] and its [finally]. *)
Definition run_query (two_days_ago yesterday : Z)
  : Eff.M W (list Schema.user_row) :=
  fun w =>
    match mysql_execute w with
    | (inr db, w1) =>
        finally_close (inr (select_users db two_days_ago yesterday)) w1
    | (inl e, w1) =>
        if is_mysql_error e then
          finally_close (inr [])
            (logging_handle
               (Py.LogRecord Py.ERROR "Error executing database query"
                             [("error", Py.VStr (text_of e))]) w1)
        else finally_close (inl e) w1
    end.

(** Lines 41 to 67; the connection and the cursor are made before the
    [try] is entered. *)
Definition get_users_to_notify : Eff.M W (list Schema.user_row) :=
  get_db_connection;;
  (cursor : Eff.M W unit);;
  t1 ← now_local;
  t2 ← now_local;
  let two_days_ago := t1 - 2 * Tz.SECONDS_PER_DAY in
  let yesterday := t2 - 1 * Tz.SECONDS_PER_DAY in
  run_query two_days_ago yesterday.

(** Lines 69 to 82. *)
Definition main : Eff.M W unit :=
  log Py.INFO "Starting habit tracker cron job..." [];;
  users_to_notify ← get_users_to_notify;
  match users_to_notify return Eff.M W unit with
  | [] => log Py.INFO "No users to notify." []
  | _ :: _ =>
      Eff.for_each users_to_notify
        (fun user =>
           send_twilio_notification (Schema.u_phone_number user) (message_for user));;
      log Py.INFO "Habit tracker cron job finished." []
  end.

End LegacyJob.
End LegacyJob.








(** With one reading of the clock, the two parameters are 48 and 24 hours
    before it. *)
Lemma legacy_selection_one_reading (db : Schema.tables) (now : Z) :
  Legacy.select_users_to_notify db now
  = LegacyJob.select_users db (now - 2 * Tz.SECONDS_PER_DAY)
                           (now - 1 * Tz.SECONDS_PER_DAY).
Proof. reflexivity. Qed.

Section LegacyRun.
Context {W : Type} {R : Runtime W}.
Variable connect : W → (Eff.exn + unit) * W.
Variable cursor : W → (Eff.exn + unit) * W.
Variable is_mysql_error : Eff.exn → bool.
Variable datetime_now_local : W → Z * W.
Variable cursor_close : W → (Eff.exn + unit) * W.
Variable connection_close : W → (Eff.exn + unit) * W.
Variable twilio_send : option string → string → W → (Eff.exn + unit) * W.

Lemma legacy_send_returns (phone_number : option string)
    (message : string) (w : W) :
  ∃ w', LegacyJob.send_twilio_notification twilio_send phone_number message w
        = (inr tt, w').
Proof.
  unfold LegacyJob.send_twilio_notification, Eff.try_except, mbind, M_bind,
    Eff.bind, log, Eff.modify.
  destruct (twilio_send phone_number message w) as [[e|[]] w1]; by eexists.
Qed.

(** [send_twilio_notification] never raises: after a failure of Twilio it
    writes one error record with the text of the exception and returns,
    as it returns after a success; its caller cannot tell the two apart. *)
Theorem legacy_send_never_raises (phone_number : option string)
    (message : string) (w : W) :
  LegacyJob.send_twilio_notification twilio_send phone_number message w
  = match twilio_send phone_number message w with
    | (inr _, w1) =>
        (inr tt,
         logging_handle
           (Py.LogRecord Py.INFO "Successfully sent notification"
                         [("phone_number", Py.of_opt_str phone_number)]) w1)
    | (inl e, w1) =>
        (inr tt,
         logging_handle
           (Py.LogRecord Py.ERROR "Failed to send Twilio notification"
                         [("phone_number", Py.of_opt_str phone_number);
                          ("error", Py.VStr (LegacyJob.text_of e))]) w1)
    end
  ∧ Eff.returned
      (LegacyJob.send_twilio_notification twilio_send phone_number message w).1
    = true.
Proof.
  unfold LegacyJob.send_twilio_notification, Eff.try_except, mbind, M_bind,
    Eff.bind, log, Eff.modify.
  by destruct (twilio_send phone_number message w) as [[e|[]] w1].
Qed.

Lemma legacy_send_all_returns (users : list Schema.user_row) (w : W) :
  ∃ w', Eff.for_each users
          (fun user =>
             LegacyJob.send_twilio_notification twilio_send
               (Schema.u_phone_number user) (LegacyJob.message_for user)) w
        = (inr tt, w').
Proof.
  revert w. induction users as [|u rest IH]; intros w; [by eexists|].
  cbn [Eff.for_each]. unfold Eff.bind.
  destruct (legacy_send_returns (Schema.u_phone_number u)
              (LegacyJob.message_for u) w) as [w1 ->].
  apply IH.
Qed.

(** What [get_users_to_notify] does with a failure, step by step.  When
    the connection cannot be made it raises.  When the cursor cannot be
    made it raises too, and nothing more is done: the connection that was
    just made is not closed, since line 44 is outside the [try].  Once the
    cursor is there, the clock is read twice and the query is run; the
    outcome of lines 58 to 64 is the selection, the empty list after one
    error record when the query raised a MySQL error, and the exception of
    the query otherwise.  On each of these three paths [cursor.close()] is
    called; [connection.close()] is called exactly when [cursor.close()]
    returned; and the outcome of lines 58 to 64 is the answer exactly when
    both returned, an exception of either taking its place. *)
Theorem legacy_get_users_outcomes (w : W) :
  let answer := LegacyJob.get_users_to_notify connect cursor is_mysql_error
                  datetime_now_local cursor_close connection_close w in
  match connect w with
  | (inl e, w1) => answer.1 = inl e
  | (inr _, w1) =>
      match cursor w1 with
      | (inl e, w2) => answer = (inl e, w2)
      | (inr _, w2) =>
          let '(t1, w3) := datetime_now_local w2 in
          let '(t2, w4) := datetime_now_local w3 in
          let outcome : Eff.exn + list Schema.user_row :=
            match (mysql_execute w4).1 with
            | inr db =>
                inr (LegacyJob.select_users db (t1 - 2 * Tz.SECONDS_PER_DAY)
                                            (t2 - 1 * Tz.SECONDS_PER_DAY))
            | inl e => if is_mysql_error e then inr [] else inl e
            end in
          let w5 :=
            match (mysql_execute w4).1 with
            | inl e =>
                if is_mysql_error e
                then logging_handle
                       (Py.LogRecord Py.ERROR "Error executing database query"
                                     [("error", Py.VStr (LegacyJob.text_of e))])
                       (mysql_execute w4).2
                else (mysql_execute w4).2
            | inr _ => (mysql_execute w4).2
            end in
          match cursor_close w5 with
          | (inl e, w6) => answer = (inl e, w6)
          | (inr _, w6) =>
              match connection_close w6 with
              | (inl e, w7) => answer = (inl e, w7)
              | (inr _, w7) => answer = (outcome, w7)
              end
          end
      end
  end.
Proof.
  cbv zeta.
  unfold LegacyJob.get_users_to_notify, LegacyJob.get_db_connection,
    LegacyJob.run_query, LegacyJob.finally_close, LegacyJob.now_local,
    Eff.try_except, mbind, M_bind, Eff.bind, log, Eff.modify, Eff.raise, Eff.ret.
  destruct (connect w) as [[e|[]] w1].
  { by destruct (is_mysql_error e). }
  destruct (cursor w1) as [[e|[]] w2]; [done|].
  destruct (datetime_now_local w2) as [t1 w3].
  destruct (datetime_now_local w3) as [t2 w4].
  destruct (mysql_execute w4) as [[e|db] w5]; cbn [fst snd].
  - destruct (is_mysql_error e).
    + destruct (cursor_close _) as [[e1|[]] w6]; [done|].
      by destruct (connection_close w6) as [[e2|[]] w7].
    + destruct (cursor_close _) as [[e1|[]] w6]; [done|].
      by destruct (connection_close w6) as [[e2|[]] w7].
  - destruct (cursor_close _) as [[e1|[]] w6]; [done|].
    by destruct (connection_close w6) as [[e2|[]] w7].
Qed.

(** One turn of the loop of [main]: the message for the user is handed to
    Twilio and one record says how that went. *)
Definition legacy_attempt (w : W) (user : Schema.user_row) : W :=
  match twilio_send (Schema.u_phone_number user) (LegacyJob.message_for user) w with
  | (inr _, w1) =>
      logging_handle
        (Py.LogRecord Py.INFO "Successfully sent notification"
                      [("phone_number", Py.of_opt_str (Schema.u_phone_number user))])
        w1
  | (inl e, w1) =>
      logging_handle
        (Py.LogRecord Py.ERROR "Failed to send Twilio notification"
                      [("phone_number", Py.of_opt_str (Schema.u_phone_number user));
                       ("error", Py.VStr (LegacyJob.text_of e))]) w1
  end.

Lemma legacy_send_all_attempts (users : list Schema.user_row) (w : W) :
  Eff.for_each users
    (fun user =>
       LegacyJob.send_twilio_notification twilio_send
         (Schema.u_phone_number user) (LegacyJob.message_for user)) w
  = (inr tt, fold_left legacy_attempt users w).
Proof.
  revert w. induction users as [|u rest IH]; intros w; [done|].
  cbn [Eff.for_each fold_left]. unfold Eff.bind.
  assert (LegacyJob.send_twilio_notification twilio_send
            (Schema.u_phone_number u) (LegacyJob.message_for u) w
          = (inr tt, legacy_attempt w u)) as ->.
  { unfold LegacyJob.send_twilio_notification, legacy_attempt, Eff.try_except,
      mbind, M_bind, Eff.bind, log, Eff.modify.
    by destruct (twilio_send _ _ w) as [[e|[]] w1]. }
  apply IH.
Qed.

(** [main] raises only when [get_users_to_notify] does, with the same
    exception.  Once the users are selected, one message is handed to
    Twilio for every one of them, in the order of the selection and
    whatever happened to the messages before: a failure is recorded and
    the loop goes on.  Then one closing record is written, and [main]
    returns. *)
Theorem legacy_main_raises_only_with_the_query (w : W) :
  let w0 := logging_handle
              (Py.LogRecord Py.INFO "Starting habit tracker cron job..." []) w in
  let end_ := LegacyJob.main connect cursor is_mysql_error datetime_now_local
                cursor_close connection_close twilio_send w in
  match LegacyJob.get_users_to_notify connect cursor is_mysql_error
          datetime_now_local cursor_close connection_close w0 with
  | (inl e, w1) => end_ = (inl e, w1)
  | (inr users, w1) =>
      end_
      = (inr tt,
         logging_handle
           (Py.LogRecord Py.INFO
              (match users with
               | [] => "No users to notify."
               | _ :: _ => "Habit tracker cron job finished."
               end) [])
           (fold_left legacy_attempt users w1))
  end.
Proof.
  cbv zeta. unfold LegacyJob.main, mbind, M_bind, Eff.bind.
  unfold log, Eff.modify.
  destruct (LegacyJob.get_users_to_notify _ _ _ _ _ _ _) as [[e|users] w1];
    [done|].
  destruct users as [|u rest]; [done|].
  rewrite legacy_send_all_attempts. reflexivity.
Qed.

End LegacyRun.

(** ** [main] of [src/app/habit_notifier.py] *)
Module HabitNotifierMain.

Definition required_keys : list string :=
  [ "DB_USER"; "DB_PASSWORD"; "DB_NAME";
    "TWILIO_ACCOUNT_SID"; "TWILIO_AUTH_TOKEN"; "TWILIO_FROM_NUMBER" ].

Section Main.
Context {W : Type} {R : Runtime W}.

(** [os.environ], Python's [int] on a string and the text of the
    [ValueError] that it raises. *)
Variable environ : string → option string.
Variable int : string → option Z.
Variable int_error : string → string.

Variable pytz_timezone : string → option Tz.zone.
Variable pymysql_connect :
  HabitNotifierApp.database_config → W → (Eff.exn + unit) * W.
Variable Client : HabitNotifierApp.twilio_config → W → (Eff.exn + unit) * W.
Variable messages_create :
  string → option string → option string → W → (Eff.exn + string) * W.
Variable connection_close : W → W.
Variable message_body : string → string.
Variable is_twilio_rest_exception : Eff.exn → bool.

(** [DatabaseConfig()], lines 32 to 36. *)
Definition database_config_init : Eff.exn + HabitNotifierApp.database_config :=
  match int (Config.getenv environ "DB_PORT" "3306") with
  | None =>
      inl (Eff.Exception (int_error (Config.getenv environ "DB_PORT" "3306")))
  | Some port =>
      inr (HabitNotifierApp.DatabaseConfig
             (Config.getenv environ "DB_HOST" "localhost") port
             (environ "DB_USER") (environ "DB_PASSWORD") (environ "DB_NAME"))
  end.

(** [TwilioConfig()], lines 47 to 49. *)
Definition twilio_config_init : HabitNotifierApp.twilio_config :=
  HabitNotifierApp.TwilioConfig
    (environ "TWILIO_ACCOUNT_SID") (environ "TWILIO_AUTH_TOKEN")
    (environ "TWILIO_FROM_NUMBER").

(** Lines 276 to 280; every exception raised here is a [ValueError]. *)
Definition configuration
  : Eff.exn + HabitNotifierApp.database_config * HabitNotifierApp.twilio_config :=
  match database_config_init with
  | inl e => inl e
  | inr db_config =>
      match HabitNotifierApp.validate_database db_config with
      | inl e => inl e
      | inr _ =>
          match HabitNotifierApp.validate_twilio twilio_config_init with
          | inl e => inl e
          | inr _ => inr (db_config, twilio_config_init)
          end
      end
  end.

(** Lines 272 to 291; the value is the exit status of the process. *)
Definition main (w : W) : Z * W :=
  match configuration with
  | inl e =>
      (1,
       logging_handle
         (Py.LogRecord Py.ERROR "Configuration error"
                       [("error", Py.VStr (HabitNotifierApp.text_of e))]) w)
  | inr (db_config, tw_config) =>
      match HabitNotifierApp.run pytz_timezone pymysql_connect Client
              messages_create connection_close message_body
              is_twilio_rest_exception db_config tw_config
              (HabitNotifierApp.Self false false, w) with
      | (Some code, s) => (code, s.2)
      | (None, s) => (0, s.2)
      end
  end.

End Main.
End HabitNotifierMain.

(** The configuration of [habit_notifier.py] is accepted exactly when the
    port is a number and the six required variables are set to strings
    that are not empty.  When it is not accepted, [main] ends with status 1
    after one error record and nothing else: no connection is attempted.
    When it is accepted, the status is 0 exactly when [run] returns
    normally, and 1 otherwise. *)
Theorem habit_notifier_main_exit_status {W : Type} {R : Runtime W}
    (environ : string → option string) (int : string → option Z)
    (int_error : string → string)
    (pytz_timezone : string → option Tz.zone)
    (pymysql_connect :
       HabitNotifierApp.database_config → W → (Eff.exn + unit) * W)
    (Client : HabitNotifierApp.twilio_config → W → (Eff.exn + unit) * W)
    (messages_create :
       string → option string → option string → W → (Eff.exn + string) * W)
    (connection_close : W → W) (message_body : string → string)
    (is_twilio_rest_exception : Eff.exn → bool) (w : W) :
  let status_and_world :=
    HabitNotifierMain.main environ int int_error pytz_timezone pymysql_connect
      Client
      messages_create connection_close message_body is_twilio_rest_exception w in
  ((∃ configs, HabitNotifierMain.configuration environ int int_error = inr configs)
   ↔ is_Some (int (Config.getenv environ "DB_PORT" "3306"))
     ∧ ∀ key, key ∈ HabitNotifierMain.required_keys →
              ∃ v, environ key = Some v ∧ v ≠ "")
  ∧ match HabitNotifierMain.configuration environ int int_error with
    | inl e =>
        status_and_world
        = (1,
           logging_handle
             (Py.LogRecord Py.ERROR "Configuration error"
                           [("error", Py.VStr (HabitNotifierApp.text_of e))]) w)
    | inr (db_config, tw_config) =>
        (status_and_world.1 = 0
         ↔ (HabitNotifierApp.run pytz_timezone pymysql_connect Client
              messages_create connection_close message_body
              is_twilio_rest_exception db_config tw_config
              (HabitNotifierApp.Self false false, w)).1 = None)
        ∧ (status_and_world.1 = 0 ∨ status_and_world.1 = 1)
    end.
Proof.
  cbv zeta. split.
  - assert (∀ key, Py.truthy (environ key) = true
                   ↔ ∃ v, environ key = Some v ∧ v ≠ "") as Htruthy.
    { intros key. unfold Py.truthy. destruct (environ key) as [v|].
      - destruct (String.eqb_spec v ""); cbn; split; try done.
        + by intros (? & [= <-] & ?).
        + intros _. by exists v.
      - split; [done|by intros (? & ? & ?)]. }
    unfold HabitNotifierMain.configuration,
      HabitNotifierMain.database_config_init,
      HabitNotifierMain.twilio_config_init,
      HabitNotifierApp.validate_database, HabitNotifierApp.validate_twilio,
      HabitNotifierApp.all3.
    destruct (int _) as [port|].
    2:{ split; [by intros [? ?]|by intros [[? ?] _]]. }
    cbn [HabitNotifierApp.user HabitNotifierApp.password
         HabitNotifierApp.database HabitNotifierApp.account_sid
         HabitNotifierApp.auth_token HabitNotifierApp.from_number].
    split.
    + intros [configs Hc]. split; [done|]. intros key Hkey. apply Htruthy.
      destruct (Py.truthy (environ "DB_USER")) eqn:H1;
        destruct (Py.truthy (environ "DB_PASSWORD")) eqn:H2;
        destruct (Py.truthy (environ "DB_NAME")) eqn:H3; try done.
      destruct (Py.truthy (environ "TWILIO_ACCOUNT_SID")) eqn:H4;
        destruct (Py.truthy (environ "TWILIO_AUTH_TOKEN")) eqn:H5;
        destruct (Py.truthy (environ "TWILIO_FROM_NUMBER")) eqn:H6; try done.
      unfold HabitNotifierMain.required_keys in Hkey.
      repeat (apply elem_of_cons in Hkey as [->|Hkey]; [done|]).
      by apply not_elem_of_nil in Hkey.
    + intros [_ Hall].
      assert (∀ key, key ∈ HabitNotifierMain.required_keys →
                     Py.truthy (environ key) = true) as Hk.
      { intros key Hkey. by apply Htruthy, Hall. }
      unfold HabitNotifierMain.required_keys in Hk.
      rewrite !Hk;
        [by eexists
        |repeat first [apply list_elem_of_here|apply list_elem_of_further]..].
  - unfold HabitNotifierMain.main.
    destruct (HabitNotifierMain.configuration environ int int_error)
      as [e|[db_config tw_config]]; [done|].
    pose proof (run_status_cases pytz_timezone pymysql_connect Client
                  messages_create connection_close message_body
                  is_twilio_rest_exception db_config tw_config
                  (HabitNotifierApp.Self false false, w)) as Hstatus.
    cbv zeta in Hstatus.
    destruct (HabitNotifierApp.run _ _ _ _ _ _ _ _ _ _) as [[code|] s];
      cbn [fst snd] in *.
    + destruct Hstatus as [?|[= ->]]; [done|]. split; [done|by right].
    + split; [done|by left].
Qed.

(** * The two implementations on zones without transitions *)

Lemma date_eq_iff wall d :
  Tz.date wall = d
  ↔ Tz.SECONDS_PER_DAY * d ≤ wall < Tz.SECONDS_PER_DAY * (d + 1).
Proof.
  split; [|apply date_of_range].
  intros <-. pose proof (date_bounds wall). lia.
Qed.

(** For a zone with the fixed offset [c], the boundaries of the two
    programs. *)
Lemma fixed_offset_window c now :
  let today := (now + c) / Tz.SECONDS_PER_DAY in
  Logic.window (Tz.Zone c []) now
  = (Tz.SECONDS_PER_DAY * (today - 2) - c, Tz.SECONDS_PER_DAY * (today - 1) - c,
     Tz.SECONDS_PER_DAY * today - c, today - 1).
Proof. reflexivity. Qed.

Lemma fixed_offset_day_boundaries c now :
  let today := (now + c) / Tz.SECONDS_PER_DAY in
  HabitNotifier.day_boundaries (Tz.Zone c []) now
  = HabitNotifier.Boundaries
      (Tz.SECONDS_PER_DAY * today - c) (Tz.SECONDS_PER_DAY * (today - 1) - c)
      (Tz.SECONDS_PER_DAY * (today - 2) - c) (today - 1) (today - 2).
Proof.
  cbv zeta. unfold HabitNotifier.day_boundaries.
  change (Tz.fromutc_offset (Tz.Zone c []) now) with c.
  set (today := (now + c) / Tz.SECONDS_PER_DAY).
  f_equal; try (unfold Tz.SECONDS_PER_DAY; lia).
  - apply date_of_range. unfold Tz.SECONDS_PER_DAY. lia.
  - apply date_of_range. unfold Tz.SECONDS_PER_DAY. lia.
Qed.

(** For every zone without transitions (UTC, which both programs fall back
    to, among them), every instant, every database and every user, the two
    programs compute the same three boundaries and the same two dates, and
    reach the same verdict, although [habit_notifier.py] also fetches the
    logs of the running day. *)
Theorem fixed_offset_implementations_agree
    (c now : Z) (db : Schema.tables) (user_id : Z) :
  let zone := Tz.Zone c [] in
  let b := HabitNotifier.day_boundaries zone now in
  let w := Logic.window zone now in
  (HabitNotifier.two_days_ago_start_utc b, HabitNotifier.yesterday_start_utc b,
   HabitNotifier.today_start_utc b, HabitNotifier.yesterday_date b) = w
  ∧ HabitNotifier.two_days_ago_date b = w.2 - 1
  ∧ HabitNotifier.verdict_of
      (HabitNotifier.evaluate
         (HabitNotifier.logged_dates zone
            (HabitNotifier.select_logs_since db user_id
               (HabitNotifier.two_days_ago_start_utc b))) b)
    = Logic.verdict_of
        (Logic.evaluate
           (Logic.classify zone
              (Py.Naive <$> Db.select_user_logs_between db user_id w.1.1.1 w.1.2))
           w.2).
Proof.
  cbv zeta. rewrite fixed_offset_window, fixed_offset_day_boundaries.
  cbv zeta. cbn [fst snd HabitNotifier.two_days_ago_start_utc
                 HabitNotifier.yesterday_start_utc HabitNotifier.today_start_utc
                 HabitNotifier.yesterday_date HabitNotifier.two_days_ago_date].
  set (today := (now + c) / Tz.SECONDS_PER_DAY).
  split; [done|]. split; [lia|].
  unfold HabitNotifier.evaluate, Logic.evaluate.
  cbn [HabitNotifier.yesterday_date HabitNotifier.two_days_ago_date].
  rewrite logic_decide_notify_table, habit_notifier_decide_notify_table.
  replace (today - 1 - 1) with (today - 2) by lia.
  assert (∀ d, today - 2 ≤ d ≤ today - 1 →
               d ∈ HabitNotifier.logged_dates (Tz.Zone c [])
                     (HabitNotifier.select_logs_since db user_id
                        (Tz.SECONDS_PER_DAY * (today - 2) - c))
               ↔ d ∈ Logic.classify (Tz.Zone c [])
                       (Py.Naive <$> Db.select_user_logs_between db user_id
                          (Tz.SECONDS_PER_DAY * (today - 2) - c)
                          (Tz.SECONDS_PER_DAY * today - c))) as Hsame.
  { intros d Hd. unfold HabitNotifier.logged_dates.
    rewrite elem_of_list_to_set, list_elem_of_fmap, elem_of_classify. split.
    - intros (t & -> & Ht). apply elem_of_select_logs_since in Ht as [Hlog Hge].
      exists (Py.Naive t). split; [|done].
      apply list_elem_of_fmap_2, elem_of_select_user_logs_between.
      split; [done|]. split; [done|].
      cbn [compose] in Hd. unfold Tz.astimezone in Hd.
      change (Tz.fromutc_offset (Tz.Zone c []) t) with c in Hd.
      pose proof (date_bounds (t + c)) as Hb.
      unfold Tz.SECONDS_PER_DAY in *. lia.
    - intros (dt & Hdt & <-). apply list_elem_of_fmap in Hdt as (t & -> & Ht).
      apply elem_of_select_user_logs_between in Ht as (Hlog & Hge & _).
      exists t. split; [done|]. by apply elem_of_select_logs_since. }
  rewrite (bool_decide_ext _ _ (Hsame (today - 1) ltac:(lia))).
  rewrite (bool_decide_ext _ _ (Hsame (today - 2) ltac:(lia))).
  reflexivity.
Qed.

(** * The messages of a run of [run_job] *)

Definition message : Type := string * string * string.

Section SentMessages.
Context {W : Type} {R : Runtime W}.

(** What Twilio has accepted so far, as [(from_, to, body)]. *)
Variable sent : W → list message.

(** Only [messages.create] talks to Twilio; a call that returns has
    handed one message over, a call that raises none. *)
Hypothesis sent_now : ∀ w, sent (datetime_now w).2 = sent w.
Hypothesis sent_log : ∀ r w, sent (logging_handle r w) = sent w.
Hypothesis sent_execute : ∀ w, sent (mysql_execute w).2 = sent w.
Hypothesis sent_create : ∀ from_ to body w,
  sent (twilio_create from_ to body w).2
  = if Eff.returned (twilio_create from_ to body w).1
    then sent w ++ [(from_, to, body)] else sent w.

Lemma sent_resolve_zone tz_name w : sent (Logic.resolve_zone tz_name w).2 = sent w.
Proof.
  unfold Logic.resolve_zone, mbind, M_bind, Eff.bind, log, Eff.modify,
    Eff.ret, Eff.raise.
  destruct (ZoneInfo_py tz_name); [done|].
  destruct (ZoneInfo "UTC"); cbn [fst snd]; apply sent_log.
Qed.

Lemma sent_get_conn w : sent (Db._get_conn w).2 = sent w.
Proof.
  unfold Db._get_conn. destruct (db_pool_ready w); [apply sent_execute|done].
Qed.

Lemma sent_verdict_for user_id tz_name w :
  sent (verdict_for user_id tz_name w).2 = sent w.
Proof.
  unfold verdict_for, Logic._compute_window, Db.fetch_user_logs_between,
    Logic._classify_days, now_utc, mbind, M_bind, Eff.bind, Eff.ret.
  pose proof (sent_now w) as Hnow.
  destruct (datetime_now w) as [now w1]. cbn [snd] in Hnow.
  pose proof (sent_resolve_zone tz_name w1) as Hz1.
  destruct (Logic.resolve_zone tz_name w1) as [[e|zone] w2]; cbn [fst snd] in *;
    [congruence|].
  destruct (Logic.window zone now) as [[[s1 s2] s3] ly].
  pose proof (sent_get_conn w2) as Hc.
  destruct (Db._get_conn w2) as [[e|db] w3]; cbn [fst snd] in *; [congruence|].
  pose proof (sent_resolve_zone tz_name w3) as Hz2.
  destruct (Logic.resolve_zone tz_name w3) as [[e|z] w4]; cbn [fst snd] in *;
    congruence.
Qed.

Lemma sent_send_sms from_number to_number body w :
  sent (Notifier.send_sms from_number to_number body w).2
  = if Eff.returned (Notifier.send_sms from_number to_number body w).1
    then sent w ++ [(from_number, to_number, body)] else sent w.
Proof.
  unfold Notifier.send_sms, Eff.try_except, mbind, M_bind, Eff.bind, log,
    Eff.modify, Eff.raise.
  destruct (twilio_client_ready w); [|done].
  pose proof (sent_create from_number to_number body w) as Hc.
  destruct (twilio_create from_number to_number body w) as [[e|[]] w1];
    cbn [fst snd Eff.returned] in *; by rewrite sent_log.
Qed.

(** A turn that adds one to [notified] has handed over one message, to
    the user's number; every other turn has handed over none. *)
Lemma sent_for_user twilio_from user_id tz_name phone c w :
  ∃ c' w',
    Logic.for_user twilio_from (user_id, tz_name, phone) (c, w)
    = (inr tt, (c', w'))
    ∧ ((Logic.notified c' = Logic.notified c + 1
        ∧ sent w' = sent w ++ [(twilio_from, phone, Logic.body_text)])
       ∨ (Logic.notified c' = Logic.notified c ∧ sent w' = sent w)).
Proof.
  rewrite for_user_cases.
  pose proof (sent_verdict_for user_id tz_name w) as Hv.
  destruct (verdict_for user_id tz_name w) as [[e|[[|] why]] w1];
    cbn [fst snd] in Hv.
  - eexists _, _. split; [done|]. right. by rewrite sent_log.
  - pose proof (sent_send_sms twilio_from phone Logic.body_text w1) as Hs.
    destruct (Notifier.send_sms twilio_from phone Logic.body_text w1)
      as [[e|[]] w2]; cbn [fst snd Eff.returned] in Hs.
    + eexists _, _. split; [done|]. right. rewrite sent_log. split; [done|congruence].
    + eexists _, _. split; [done|]. left. rewrite sent_log. split; [done|congruence].
  - eexists _, _. split; [done|]. by right.
Qed.

Lemma sent_loop twilio_from users c w :
  ∃ c' w' (msgs : list message),
    Eff.for_each users (Logic.for_user twilio_from) (c, w) = (inr tt, (c', w'))
    ∧ sent w' = sent w ++ msgs
    ∧ Logic.notified c' = Logic.notified c + Z.of_nat (length msgs)
    ∧ Forall (fun m : message => m.1.1 = twilio_from ∧ m.2 = Logic.body_text) msgs
    ∧ (fun m : message => m.1.2) <$> msgs
        `sublist_of` (fun u : Z * option string * string => u.2) <$> users.
Proof.
  revert c w. induction users as [|[[user_id tz_name] phone] rest IH]; intros c w.
  - exists c, w, []. cbn. rewrite app_nil_r. repeat split; [lia|done|done].
  - destruct (sent_for_user twilio_from user_id tz_name phone c w)
      as (c1 & w1 & Hu & Hcase).
    destruct (IH c1 w1) as (c' & w' & msgs & Hrest & Hsent & Hn & Hall & Hsub).
    cbn [Eff.for_each]. unfold Eff.bind. rewrite Hu, Hrest.
    destruct Hcase as [[Hn1 Hs1]|[Hn1 Hs1]].
    + exists c', w', ((twilio_from, phone, Logic.body_text) :: msgs).
      split; [done|]. split; [by rewrite Hsent, Hs1, <- app_assoc|].
      split; [cbn [length]; lia|]. split; [by constructor|].
      cbn [fmap list_fmap]. by apply sublist_skip.
    + exists c', w', msgs.
      split; [done|]. split; [by rewrite Hsent, Hs1|].
      split; [lia|]. split; [done|].
      cbn [fmap list_fmap]. by apply sublist_cons.
Qed.

(** When [run_job] returns, its first number is the number of messages
    that Twilio accepted during the run.  Each of them is from the
    configured number and has the one fixed text; their recipients are
    numbers of the selected users, in the order of the selection, with at
    most one message for each selected row. *)
Theorem run_job_sends_what_it_counts (twilio_from : string) (w w' : W)
    (notified skipped errors : Z) :
  Logic.run_job twilio_from w = (inr (notified, skipped, errors), w') →
  ∃ db (msgs : list message),
    (Db._get_conn w).1 = inr db
    ∧ sent w' = sent w ++ msgs
    ∧ Z.of_nat (length msgs) = notified
    ∧ Forall (fun m : message => m.1.1 = twilio_from ∧ m.2 = Logic.body_text) msgs
    ∧ (fun m : message => m.1.2) <$> msgs
        `sublist_of` (fun u : Z * option string * string => u.2)
                       <$> Db.select_users_with_phones db.
Proof.
  unfold Logic.run_job, Db.fetch_users_with_phones, mbind, M_bind, Eff.bind,
    Eff.ret, Eff.with_locals.
  pose proof (sent_get_conn w) as Hc.
  destruct (Db._get_conn w) as [[e|db] w1]; cbn [fst snd] in *; [done|].
  destruct (sent_loop twilio_from (Db.select_users_with_phones db)
              (Logic.Counters 0 0 0) w1)
    as (c' & w2 & msgs & Hloop & Hsent & Hn & Hall & Hsub).
  rewrite Hloop. intros [= <- <- <- <-].
  exists db, msgs. split; [done|]. split; [congruence|].
  split; [cbn in Hn; lia|]. done.
Qed.

End SentMessages.

(** The five users at noon of 2024-03-11, with a Twilio that refuses the
    second message: users 1, 2 and 5 are due, the messages to 1 and 5 are
    accepted. *)
Lemma run_job_sends_what_it_counts_witness :
  let w := Sim.ready Sim.noon_2024_03_11 Sim.five_users [] [false; true] in
  ∃ db (msgs : list message),
    (Db._get_conn w).1 = inr db
    ∧ Sim.sent (Logic.run_job "+15550199" w).2 = Sim.sent w ++ msgs
    ∧ (Logic.run_job "+15550199" w).1 = inr (Z.of_nat (length msgs), 2, 1)
    ∧ Forall (fun m : message => m.1.1 = "+15550199" ∧ m.2 = Logic.body_text) msgs
    ∧ (fun m : message => m.1.2) <$> msgs
        `sublist_of` (fun u : Z * option string * string => u.2)
                       <$> Db.select_users_with_phones db.
Proof.
  cbv zeta.
  destruct (run_job_sends_what_it_counts (R := Sim.runtime) Sim.sent
              (fun w => eq_refl) (fun r w => eq_refl)
              (fun w => match w with
                        | Sim.World _ _ _ _ [] _ _ _ => eq_refl
                        | Sim.World _ _ _ _ (true :: _) _ _ _ => eq_refl
                        | Sim.World _ _ _ _ (false :: _) _ _ _ => eq_refl
                        end)
              (fun from_ to body w =>
                 match w with
                 | Sim.World _ _ _ _ _ [] _ _ => eq_refl
                 | Sim.World _ _ _ _ _ (true :: _) _ _ => eq_refl
                 | Sim.World _ _ _ _ _ (false :: _) _ _ => eq_refl
                 end)
              "+15550199"
              (Sim.ready Sim.noon_2024_03_11 Sim.five_users [] [false; true])
              (Logic.run_job "+15550199"
                 (Sim.ready Sim.noon_2024_03_11 Sim.five_users [] [false; true])).2
              2 2 1)
    as (db & msgs & H1 & H2 & H3 & H4 & H5).
  - by vm_compute.
  - exists db, msgs. rewrite H3. repeat split; try done.
Defined.
